(** * Obsidian R2 uploader: key/URL builder, uploader and upload pipeline

    A shallow embedding of [r2-uploader.ts], of the pipeline functions of
    [main.ts] and of the folder chooser of [settings-tab.ts].

    Conventions.
    - A TypeScript [string] is a Rocq [string]; every [ascii] stands for one
      UTF-16 code unit below 256, so [String.length] is the JavaScript
      [.length] on such strings.
    - A JavaScript integer [number] (time values, the calendar year) is a [Z].
    - Code that reads the clock, talks to the object store, raises notices or
      edits the document runs in the monad [M]: a state monad over [World]
      whose outcome is either a returned value or a thrown JavaScript value.
    - [await] is sequencing in [M]; [Promise.all] over a mapped array is the
      left-to-right traversal [mapM], whose result array keeps input order. *)

From Stdlib Require Import ZArith List String Ascii Bool Lia.
From Stdlib Require Import Numbers.DecimalString DecimalZ.
Import ListNotations.
Open Scope string_scope.
Open Scope bool_scope.

Set Implicit Arguments.

(* ================================================================== *)
(** * JavaScript primitives used by the sources *)
(* ================================================================== *)

Module Js.

(** [!!s] for a string: only the empty string is falsy. *)
Definition truthy (s : string) : bool := negb (s =? "").

(** [s.startsWith(p)] *)
Definition startsWith (s p : string) : bool := prefix p s.

(** [s.endsWith(p)] *)
Fixpoint endsWith (s p : string) : bool :=
  (s =? p) ||
  match s with
  | EmptyString => false
  | String _ s' => endsWith s' p
  end.

(** [s.includes(p)] *)
Fixpoint includes (s p : string) : bool :=
  prefix p s ||
  match s with
  | EmptyString => false
  | String _ s' => includes s' p
  end.

(** [s.slice(n)] for [0 <= n]. *)
Fixpoint drop (n : nat) (s : string) : string :=
  match n, s with
  | O, _ => s
  | S _, EmptyString => EmptyString
  | S n', String _ s' => drop n' s'
  end.

(** [s.slice(0, n)] for [0 <= n]. *)
Fixpoint take (n : nat) (s : string) : string :=
  match n, s with
  | O, _ => EmptyString
  | S _, EmptyString => EmptyString
  | S n', String c s' => String c (take n' s')
  end.

(** [s.replace(pat, rep)] with a string pattern: only the first
    occurrence of [pat] is replaced.  ([rep] is taken literally; the
    sources only pass the empty replacement, which has no [$] patterns.) *)
Fixpoint replace (s pat rep : string) : string :=
  if prefix pat s then rep ++ drop (String.length pat) s
  else match s with
       | EmptyString => EmptyString
       | String c s' => String c (replace s' pat rep)
       end.

(** [s.split(sep)] for a one-character separator. The array is never
    empty: [''.split('.')] is [['']]. *)
Fixpoint split (sep : ascii) (s : string) : list string :=
  match s with
  | EmptyString => [EmptyString]
  | String c s' =>
      if Ascii.eqb c sep then EmptyString :: split sep s'
      else match split sep s' with
           | h :: t => String c h :: t
           | [] => [String c EmptyString]
           end
  end.

(** [arr.at(-1)]: the last element, [undefined] on the empty array. *)
Fixpoint at_last (A : Type) (l : list A) : option A :=
  match l with
  | [] => None
  | [x] => Some x
  | _ :: t => at_last t
  end.

(** Every code unit of [s] satisfies [p]. *)
Fixpoint every (p : ascii -> bool) (s : string) : bool :=
  match s with
  | EmptyString => true
  | String c s' => p c && every p s'
  end.

(** [arr.join(sep)] *)
Definition join (sep : string) (l : list string) : string :=
  String.concat sep l.

(** [`${n}`] for an integer number in the range of time values. *)
Definition numberToString (n : Z) : string :=
  NilEmpty.string_of_int (Z.to_int n).

(** [`${x}`] where [x] may be [undefined]. *)
Definition optionToString (x : option string) : string :=
  match x with
  | Some s => s
  | None => "undefined"
  end.

(** Values that reach a [catch] clause: [Error] objects (with the flag
    [instanceof TypeError], their [name] and [message]), and any other
    value, given by the text its conversion to a string yields. *)
Inductive Value : Type :=
| ErrorObject (isTypeError : bool) (name message : string)
| StringValue (s : string).

(** [new TypeError(msg)] and [new Error(msg)] *)
Definition TypeError (msg : string) : Value := ErrorObject true "TypeError" msg.
Definition Error (msg : string) : Value := ErrorObject false "Error" msg.

(** [`${error}`]: [Error.prototype.toString] for error objects. *)
Definition toString (v : Value) : string :=
  match v with
  | ErrorObject _ name message =>
      if name =? "" then message
      else if message =? "" then name
      else name ++ ": " ++ message
  | StringValue s => s
  end.

(** The white space and line terminators among the code units below 256:
    tab, line feed, vertical tab, form feed, carriage return, space and the
    no-break space. *)
Definition isWhiteSpace (c : ascii) : bool :=
  existsb (Nat.eqb (nat_of_ascii c)) [9; 10; 11; 12; 13; 32; 160]%nat.

(** [s.trimStart()] *)
Fixpoint trimStart (s : string) : string :=
  match s with
  | EmptyString => EmptyString
  | String c s' => if isWhiteSpace c then trimStart s' else s
  end.

(** [s.trimEnd()] *)
Fixpoint trimEnd (s : string) : string :=
  if every isWhiteSpace s then EmptyString
  else match s with
       | EmptyString => EmptyString
       | String c s' => String c (trimEnd s')
       end.

(** [s.trim()] *)
Definition trim (s : string) : string := trimEnd (trimStart s).

(** [arr.splice(index, 1)] on a copy: the array without the element at
    [index]; nothing is removed when [index] is past the end. *)
Definition splice1 (A : Type) (index : nat) (l : list A) : list A :=
  (firstn index l ++ skipn (S index) l)%list.

End Js.

(* ================================================================== *)
(** * types.ts *)
(* ================================================================== *)

Inductive Result (T : Type) : Type :=
| Success (data : T)
| Failure (error : string).
Arguments Success {T} data.
Arguments Failure {T} error.

Definition isSuccess (T : Type) (result : Result T) : bool :=
  match result with
  | Success _ => true
  | Failure _ => false
  end.

Record R2UploaderSettings : Type := {
  endpoint : string;
  accessKeyId : string;
  secretAccessKey : string;
  bucketName : string;
  region : string;
  customDomain : string;
  pathPrefix : string;
  useYearSubdirectory : bool;
  enabledFolders : list string
}.

Record UploadResult : Type := {
  url : string;
  fileName : string;
  timestamp : Z
}.

Record FileInfo : Type := {
  info_name : string;
  info_type : string;
  info_size : N;
  info_content : list Byte.byte
}.

Definition DEFAULT_SETTINGS : R2UploaderSettings := {|
  endpoint := "";
  accessKeyId := "";
  secretAccessKey := "";
  bucketName := "";
  region := "auto";
  customDomain := "";
  pathPrefix := "images/";
  useYearSubdirectory := true;
  enabledFolders := []
|}.

(** A browser [File]: [arrayBuffer] either resolves to the bytes or rejects
    with a value. *)
Module File.
Record t : Type := {
  name : string;
  type : string;
  size : N;
  arrayBuffer : Js.Value + list Byte.byte
}.
End File.

(* ================================================================== *)
(** * The world the plugin runs in *)
(* ================================================================== *)

Record PutObjectCommand : Type := {
  Bucket : string;
  Key : string;
  Body : list Byte.byte;
  ContentType : string
}.

Record S3Client : Type := {
  client_endpoint : string;
  client_region : string;
  client_accessKeyId : string;
  client_secretAccessKey : string
}.

Record EditorPosition : Type := { line : nat; ch : nat }.

(** Calls made on the host and on the network, in the order they happen. *)
Inductive HostCall : Type :=
| CallSend (client : S3Client) (command : PutObjectCommand)
| CallNotice (message : string) (timeout : Z)
| CallReplaceRange (text : string) (pos : EditorPosition)
| CallPreventDefault
| CallStopPropagation
| CallStopImmediatePropagation.

Record World : Type := {
  now : Z;                                     (* Date.now() *)
  fullYear : Z;                                (* new Date().getFullYear() *)
  respond : S3Client -> PutObjectCommand -> option Js.Value;
                                               (* None: the PUT is acknowledged *)
  cursor : EditorPosition;                     (* editor.getCursor() *)
  trace : list HostCall                        (* oldest call first *)
}.

Inductive Outcome (A : Type) : Type :=
| Returned (a : A)
| Thrown (v : Js.Value).
Arguments Returned {A} a.
Arguments Thrown {A} v.

Definition M (A : Type) : Type := World -> Outcome A * World.

Definition ret (A : Type) (a : A) : M A := fun w => (Returned a, w).

Definition throw (A : Type) (v : Js.Value) : M A := fun w => (Thrown v, w).
Arguments throw {A} v.

Definition bind (A B : Type) (m : M A) (k : A -> M B) : M B :=
  fun w =>
    match m w with
    | (Returned a, w') => k a w'
    | (Thrown v, w') => (Thrown v, w')
    end.

(** [try { body } catch (error) { handler }] *)
Definition tryCatch (A : Type) (body : M A) (handler : Js.Value -> M A) : M A :=
  fun w =>
    match body w with
    | (Returned a, w') => (Returned a, w')
    | (Thrown v, w') => handler v w'
    end.

Notation "x <- m ;; k" := (bind m (fun x => k))
  (at level 61, m at next level, right associativity).
Notation "m ;;; k" := (bind m (fun _ => k))
  (at level 61, right associativity).

Fixpoint mapM (A B : Type) (f : A -> M B) (l : list A) : M (list B) :=
  match l with
  | [] => ret []
  | x :: xs => y <- f x ;; ys <- mapM f xs ;; ret (y :: ys)
  end.

(** [arr.forEach(f)] *)
Fixpoint forEach (A : Type) (f : A -> M unit) (l : list A) : M unit :=
  match l with
  | [] => ret tt
  | x :: xs => f x ;;; forEach f xs
  end.

(** The world after one more call. *)
Definition logged (c : HostCall) (w : World) : World :=
  {| now := now w; fullYear := fullYear w; respond := respond w;
     cursor := cursor w; trace := trace w ++ [c] |}.

Definition record (c : HostCall) : M unit :=
  fun w => (Returned tt, logged c w).

(** [Date.now()] *)
Definition dateNow : M Z := fun w => (Returned (now w), w).

(** [new Date().getFullYear()] *)
Definition getFullYear : M Z := fun w => (Returned (fullYear w), w).

(** [await file.arrayBuffer()] *)
Definition arrayBufferOf (file : File.t) : M (list Byte.byte) :=
  match File.arrayBuffer file with
  | inr bytes => ret bytes
  | inl v => throw v
  end.

(** [await client.send(command)]: one outbound PUT; the store acknowledges
    it or the call rejects. *)
Definition send (client : S3Client) (command : PutObjectCommand) : M unit :=
  record (CallSend client command) ;;;
  fun w => match respond w client command with
           | None => (Returned tt, w)
           | Some v => (Thrown v, w)
           end.

(* ================================================================== *)
(** * r2-uploader.ts *)
(* ================================================================== *)

(** Building the client and the command only stores their fields; the
    network is reached by [send]. *)
Definition createS3Client (settings : R2UploaderSettings) : S3Client := {|
  client_endpoint := endpoint settings;
  client_region := region settings;
  client_accessKeyId := accessKeyId settings;
  client_secretAccessKey := secretAccessKey settings
|}.

Definition normalizedPrefix (pathPrefix : string) : string :=
  if Js.endsWith pathPrefix "/" then pathPrefix else pathPrefix ++ "/".

Definition generateFileKey (pathPrefix fileName : string)
  (useYearSubdirectory : bool) : M string :=
  subdirectory <- (if useYearSubdirectory
                   then (y <- getFullYear ;; ret (Js.numberToString y ++ "/"))
                   else ret "") ;;
  ret (normalizedPrefix pathPrefix ++ subdirectory ++ fileName).

Definition createUrl (settings : R2UploaderSettings) (key : string) : string :=
  let baseUrl :=
    if Js.truthy (customDomain settings) then customDomain settings
    else "https://" ++ bucketName settings ++ "." ++
         Js.replace (endpoint settings) "https://" "" in
  baseUrl ++ "/" ++ key.

Definition fileToFileInfo (file : File.t) : M (Result FileInfo) :=
  tryCatch
    (content <- arrayBufferOf file ;;
     ret (Success {| info_name := File.name file;
                     info_type := File.type file;
                     info_size := File.size file;
                     info_content := content |}))
    (fun error => ret (Failure ("Failed to read file: " ++ Js.toString error))).

(** The [errors] array of [validateSettings], in push order. *)
Definition missingSettings (settings : R2UploaderSettings) : list string :=
  (if Js.truthy (endpoint settings) then [] else ["endpoint"]) ++
  (if Js.truthy (accessKeyId settings) then [] else ["accessKeyId"]) ++
  (if Js.truthy (secretAccessKey settings) then [] else ["secretAccessKey"]) ++
  (if Js.truthy (bucketName settings) then [] else ["bucketName"]).

Definition validateSettings (settings : R2UploaderSettings)
  : Result R2UploaderSettings :=
  let errors := missingSettings settings in
  if (0 <? List.length errors)%nat
  then Failure ("Missing required settings: " ++ Js.join ", " errors)
  else Success settings.

(** The double-quote character. *)
Definition dquote : ascii := "034"%char.

Definition corsMessage : string :=
  "Upload failed: CORS error. Please add " ++
  String dquote "app://obsidian.md" ++
  String dquote " to AllowedOrigins in your R2 bucket CORS policy.".

(** [error instanceof TypeError && error.message.includes('Failed to fetch')] *)
Definition isFetchFailure (error : Js.Value) : bool :=
  match error with
  | Js.ErrorObject true _ message => Js.includes message "Failed to fetch"
  | _ => false
  end.

Definition getErrorMessage (error : Js.Value) : string :=
  if isFetchFailure error then corsMessage
  else "Upload failed: " ++ Js.toString error.

Definition uploadFile (settings : R2UploaderSettings) (file : File.t)
  (fileName : string) : M (Result UploadResult) :=
  match validateSettings settings with
  | Failure error => ret (Failure error)
  | Success _ =>
      fileInfoResult <- fileToFileInfo file ;;
      match fileInfoResult with
      | Failure error => ret (Failure error)
      | Success data =>
          tryCatch
            (let client := createS3Client settings in
             key <- generateFileKey (pathPrefix settings) fileName
                      (useYearSubdirectory settings) ;;
             let command := {| Bucket := bucketName settings;
                               Key := key;
                               Body := info_content data;
                               ContentType := info_type data |} in
             send client command ;;;
             let url := createUrl settings key in
             timestamp <- dateNow ;;
             ret (Success {| url := url;
                             fileName := fileName;
                             timestamp := timestamp |}))
            (fun error => ret (Failure (getErrorMessage error)))
      end
  end.

Definition generateUniqueFileName (originalName : string) : M string :=
  timestamp <- dateNow ;;
  let extension := Js.at_last (Js.split "." originalName) in
  ret (Js.numberToString timestamp ++ "." ++ Js.optionToString extension).

(* ================================================================== *)
(** * The [sanitize-filename] package *)
(* ================================================================== *)

Module Sanitize.

(** Modelled from the spec: [sanitize] is the default export of the npm
    package [sanitize-filename], which [main.ts] imports and which is not
    among the sources.  The spec says that disallowed characters are
    replaced by a single placeholder character; the character classes and
    the passes below are the ones the package documents: the illegal
    characters [/ ? < > \ : * |] and the double quote, the C0 and C1
    control codes, the reserved names made of dots, the reserved device
    names, trailing dots and spaces, and a cap of 255 UTF-8 bytes. *)

Definition illegal (c : ascii) : bool :=
  existsb (Ascii.eqb c)
    ["/"; "?"; "<"; ">"; "\"; ":"; "*"; "|"; dquote]%char.

Definition control (c : ascii) : bool :=
  let n := nat_of_ascii c in
  (n <=? 31)%nat || ((128 <=? n)%nat && (n <=? 159)%nat).

(** [s.replace(/[class]/g, replacement)] *)
Fixpoint replaceAll (p : ascii -> bool) (replacement s : string) : string :=
  match s with
  | EmptyString => EmptyString
  | String c s' =>
      (if p c then replacement else String c EmptyString) ++
      replaceAll p replacement s'
  end.

Definition nonEmpty (s : string) : bool := negb (s =? "").

(** [/^\.+$/] *)
Definition reserved (s : string) : bool :=
  nonEmpty s && Js.every (Ascii.eqb ".") s.

Definition toLower (c : ascii) : ascii :=
  let n := nat_of_ascii c in
  if (65 <=? n)%nat && (n <=? 90)%nat then ascii_of_nat (n + 32) else c.

Fixpoint lowercase (s : string) : string :=
  match s with
  | EmptyString => EmptyString
  | String c s' => String (toLower c) (lowercase s')
  end.

Definition deviceNames : list string :=
  ["con"; "prn"; "aux"; "nul";
   "com0"; "com1"; "com2"; "com3"; "com4";
   "com5"; "com6"; "com7"; "com8"; "com9";
   "lpt0"; "lpt1"; "lpt2"; "lpt3"; "lpt4";
   "lpt5"; "lpt6"; "lpt7"; "lpt8"; "lpt9"].

(** A character the regular expression dot does not match. *)
Definition lineTerminator (c : ascii) : bool :=
  Ascii.eqb c "010" || Ascii.eqb c "013".

(** The optional extension of the device-name pattern: nothing, or a dot
    followed by characters the regular expression dot matches. *)
Definition extensionOrEnd (rest : string) : bool :=
  match rest with
  | EmptyString => true
  | String c rest' =>
      Ascii.eqb c "." && Js.every (fun x => negb (lineTerminator x)) rest'
  end.

(** The case-insensitive pattern of the device names [con], [prn], [aux],
    [nul], [com0] to [com9] and [lpt0] to [lpt9], alone or followed by an
    extension, anchored at both ends. *)
Definition windowsReserved (s : string) : bool :=
  existsb
    (fun device =>
       prefix device (lowercase s) &&
       extensionOrEnd (Js.drop (String.length device) s))
    deviceNames.

Definition dotOrSpace (c : ascii) : bool :=
  Ascii.eqb c "." || Ascii.eqb c " ".

(** [s.replace(/[\. ]+$/, replacement)]: the maximal trailing run. *)
Fixpoint replaceTrailing (replacement s : string) : string :=
  if nonEmpty s && Js.every dotOrSpace s then replacement
  else match s with
       | EmptyString => EmptyString
       | String c s' => String c (replaceTrailing replacement s')
       end.

Definition utf8Length (c : ascii) : nat :=
  if (nat_of_ascii c <? 128)%nat then 1 else 2.

(** [truncate(s, byteLength)] of [truncate-utf8-bytes]: the longest
    prefix whose UTF-8 encoding fits. *)
Fixpoint truncate (byteLength : nat) (s : string) : string :=
  match s with
  | EmptyString => EmptyString
  | String c s' =>
      if (utf8Length c <=? byteLength)%nat
      then String c (truncate (byteLength - utf8Length c) s')
      else EmptyString
  end.

(** The package's internal [sanitize(input, replacement)]. *)
Definition pass (input replacement : string) : string :=
  let s1 := replaceAll illegal replacement input in
  let s2 := replaceAll control replacement s1 in
  let s3 := if reserved s2 then replacement else s2 in
  let s4 := if windowsReserved s3 then replacement else s3 in
  let s5 := replaceTrailing replacement s4 in
  truncate 255 s5.

(** The export: [sanitize(input, { replacement })]. *)
Definition sanitize (input replacement : string) : string :=
  let output := pass input replacement in
  if replacement =? "" then output else pass output "".

End Sanitize.

(* ================================================================== *)
(** * The host editor *)
(* ================================================================== *)

Module Editor.

(** Modelled from the spec: the host's [replaceRange(text, position)] is
    not among the sources.  The document is a list of lines; inserting at
    a position puts the text between the part of the line before the
    column and the part after it, a line feed in the text starting a new
    line; a column past the end of the line is the end of the line, a line
    past the last line is the last line. *)

Definition splice (text : string) (col : nat) (l : string) : list string :=
  match Js.split "010" text with
  | [] => [l]
  | [t] => [Js.take col l ++ t ++ Js.drop col l]
  | t :: rest =>
      (Js.take col l ++ t) :: removelast rest ++
      [last rest EmptyString ++ Js.drop col l]
  end.

Fixpoint replaceRange (text : string) (row col : nat) (doc : list string)
  : list string :=
  match doc with
  | [] => splice text 0 EmptyString
  | [l] => splice text (match row with O => col | S _ => String.length l end) l
  | l :: ls =>
      match row with
      | O => splice text col l ++ ls
      | S row' => l :: replaceRange text row' col ls
      end
  end.

(** The document after the editor calls of a trace. *)
Fixpoint run (calls : list HostCall) (doc : list string) : list string :=
  match calls with
  | [] => doc
  | CallReplaceRange text pos :: rest =>
      run rest (replaceRange text (line pos) (ch pos) doc)
  | _ :: rest => run rest doc
  end.

End Editor.

(* ================================================================== *)
(** * main.ts *)
(* ================================================================== *)

Record App : Type := {
  activeFile : option string;      (* path of workspace.getActiveFile() *)
  activeMarkdownView : bool        (* getActiveViewOfType(MarkdownView) *)
}.

Definition getCurrentFilePath (app : App) : string :=
  match activeFile app with
  | Some path => path
  | None => ""
  end.

Definition isInEnabledFolder (filePath : string) (enabledFolders : list string)
  : bool :=
  if negb (Js.truthy filePath) then false
  else if (List.length enabledFolders =? 0)%nat then true
  else existsb
         (fun folder =>
            Js.startsWith filePath (folder ++ "/") || (filePath =? folder))
         enabledFolders.

Definition showNotice (message : string) (timeout : Z) : M unit :=
  record (CallNotice message timeout).

(** The callback of [files.map] in [processFiles]. *)
Definition uploadOne (settings : R2UploaderSettings) (file : File.t)
  : M (Result UploadResult) :=
  uniqueName <- generateUniqueFileName (File.name file) ;;
  uploadFile settings file uniqueName.

Definition processFiles (files : list File.t) (settings : R2UploaderSettings)
  : M (list (Result UploadResult)) :=
  mapM (uploadOne settings) files.

Record FileProcessResult : Type := {
  originalName : string;
  result : Result UploadResult
}.

Module MarkdownLink.
Record t : Type := {
  displayName : string;
  url : string
}.
End MarkdownLink.

Definition getCursor : M EditorPosition := fun w => (Returned (cursor w), w).

Definition markdownLink (link : MarkdownLink.t) : string :=
  "![" ++ MarkdownLink.displayName link ++ "](" ++ MarkdownLink.url link ++ ")".

(** The [forEach] of [insertMarkdownLinks], with the captured variable
    [insertPosition] as an argument. *)
Fixpoint insertFrom (insertPosition : EditorPosition)
  (links : list MarkdownLink.t) : M unit :=
  match links with
  | [] => ret tt
  | link :: rest =>
      record (CallReplaceRange (markdownLink link) insertPosition) ;;;
      insertFrom {| line := line insertPosition;
                    ch := ch insertPosition + String.length (markdownLink link) |}
                 rest
  end.

Definition insertMarkdownLinks (links : list MarkdownLink.t) : M unit :=
  insertPosition <- getCursor ;;
  insertFrom insertPosition links.

Definition showProcessResults (results : list FileProcessResult) : M unit :=
  forEach
    (fun r =>
       let safeName := Sanitize.sanitize (originalName r) "_" in
       match result r with
       | Success _ => showNotice ("Successfully uploaded " ++ safeName) 2000
       | Failure error =>
           showNotice ("Failed to upload " ++ safeName ++ ": " ++ error) 0
       end)
    results.

(** [results.map((result, index) => ...)]: [files[index].name] throws a
    [TypeError] when [files[index]] is [undefined]. *)
Fixpoint zipNames (files : list File.t) (index : nat)
  (results : list (Result UploadResult)) : M (list FileProcessResult) :=
  match results with
  | [] => ret []
  | r :: rest =>
      match nth_error files index with
      | None => throw (Js.TypeError "Cannot read properties of undefined")
      | Some file =>
          others <- zipNames files (S index) rest ;;
          ret ({| originalName := File.name file; result := r |} :: others)
      end
  end.

Definition linkOf (r : FileProcessResult) : MarkdownLink.t := {|
  MarkdownLink.displayName := Sanitize.sanitize (originalName r) "_";
  MarkdownLink.url := match result r with
                      | Success data => url data
                      | Failure _ => ""
                      end
|}.

Definition processImages (files : list File.t) (settings : R2UploaderSettings)
  : M unit :=
  results <- processFiles files settings ;;
  processResults <- zipNames files 0 results ;;
  insertMarkdownLinks
    (map linkOf (filter (fun r => isSuccess (result r)) processResults)) ;;;
  showProcessResults processResults.

Record DragEvent : Type := {
  dataTransfer : option (list File.t)       (* event.dataTransfer?.files *)
}.

Record DataTransferItem : Type := {
  kind : string;
  item_type : string;
  getAsFile : option File.t
}.

Record ClipboardEvent : Type := {
  clipboardData : option (list DataTransferItem)
}.

Definition extractDropFiles (event : DragEvent) : list File.t :=
  filter (fun file => Js.startsWith (File.type file) "image/")
    (match dataTransfer event with Some files => files | None => [] end).

Fixpoint keepFiles (l : list (option File.t)) : list File.t :=
  match l with
  | [] => []
  | Some f :: t => f :: keepFiles t
  | None :: t => keepFiles t
  end.

Definition extractPasteFiles (event : ClipboardEvent) : list File.t :=
  keepFiles
    (map getAsFile
       (filter (fun item => (kind item =? "file") &&
                            Js.startsWith (item_type item) "image/")
          (match clipboardData event with Some items => items | None => [] end))).

Definition validateConditions (app : App) (settings : R2UploaderSettings)
  : M bool :=
  if (0 <? List.length (enabledFolders settings))%nat &&
     negb (isInEnabledFolder (getCurrentFilePath app) (enabledFolders settings))
  then showNotice "Current folder is not enabled for uploads" 4000 ;;;
       ret false
  else
    let hasRequiredSettings :=
      Js.truthy (endpoint settings) && Js.truthy (accessKeyId settings) &&
      Js.truthy (secretAccessKey settings) && Js.truthy (bucketName settings) in
    if negb hasRequiredSettings
    then showNotice
           "R2 uploader settings are incomplete. Please check the plugin settings."
           4000 ;;;
         ret false
    else ret true.

Definition handleDrop (event : DragEvent) (app : App)
  (settings : R2UploaderSettings) : M unit :=
  tryCatch
    (if negb (activeMarkdownView app) then ret tt
     else
       ok <- validateConditions app settings ;;
       if negb ok then ret tt
       else
         let imageFiles := extractDropFiles event in
         if (List.length imageFiles =? 0)%nat then ret tt
         else
           record CallPreventDefault ;;;
           record CallStopPropagation ;;;
           record CallStopImmediatePropagation ;;;
           processImages imageFiles settings)
    (fun error => showNotice ("Plugin error: " ++ Js.toString error) 4000).

Definition handlePaste (event : ClipboardEvent) (app : App)
  (settings : R2UploaderSettings) : M unit :=
  tryCatch
    (if negb (activeMarkdownView app) then ret tt
     else
       ok <- validateConditions app settings ;;
       if negb ok then ret tt
       else
         let imageFiles := extractPasteFiles event in
         if (List.length imageFiles =? 0)%nat then ret tt
         else
           record CallPreventDefault ;;;
           processImages imageFiles settings)
    (fun error => showNotice ("Plugin error: " ++ Js.toString error) 4000).

(* ================================================================== *)
(** * settings-tab.ts *)
(* ================================================================== *)

(** [FolderSuggestModal.onChooseItem]: the path handed to [onSubmit]. *)
Definition onChooseItem (folderPath : string) : string :=
  if folderPath =? "/" then "" else folderPath.

(** [FolderSuggestModal.getItemText] *)
Definition getItemText (folderPath : string) : string :=
  if folderPath =? "/" then "(root)" else folderPath.

(** The keys of [R2UploaderSettings] ([keyof R2UploaderSettings]). *)
Inductive SettingKey : Type :=
| KeyEndpoint
| KeyAccessKeyId
| KeySecretAccessKey
| KeyBucketName
| KeyRegion
| KeyCustomDomain
| KeyPathPrefix
| KeyUseYearSubdirectory
| KeyEnabledFolders.

(** The type of the field a key names: every call of [updateSettings] in
    the sources passes a value of that type. *)
Definition valueType (key : SettingKey) : Type :=
  match key with
  | KeyUseYearSubdirectory => bool
  | KeyEnabledFolders => list string
  | _ => string
  end.

(** [settings[key]] *)
Definition getSetting (key : SettingKey) (settings : R2UploaderSettings)
  : valueType key :=
  match key with
  | KeyEndpoint => endpoint settings
  | KeyAccessKeyId => accessKeyId settings
  | KeySecretAccessKey => secretAccessKey settings
  | KeyBucketName => bucketName settings
  | KeyRegion => region settings
  | KeyCustomDomain => customDomain settings
  | KeyPathPrefix => pathPrefix settings
  | KeyUseYearSubdirectory => useYearSubdirectory settings
  | KeyEnabledFolders => enabledFolders settings
  end.

(** [updateSettings]: the spread [{ ...currentSettings, [key]: value }]. *)
Definition updateSettings (currentSettings : R2UploaderSettings)
  (key : SettingKey) : valueType key -> R2UploaderSettings :=
  let s := currentSettings in
  match key return valueType key -> R2UploaderSettings with
  | KeyEndpoint => fun value =>
      {| endpoint := value; accessKeyId := accessKeyId s;
         secretAccessKey := secretAccessKey s; bucketName := bucketName s;
         region := region s; customDomain := customDomain s;
         pathPrefix := pathPrefix s;
         useYearSubdirectory := useYearSubdirectory s;
         enabledFolders := enabledFolders s |}
  | KeyAccessKeyId => fun value =>
      {| endpoint := endpoint s; accessKeyId := value;
         secretAccessKey := secretAccessKey s; bucketName := bucketName s;
         region := region s; customDomain := customDomain s;
         pathPrefix := pathPrefix s;
         useYearSubdirectory := useYearSubdirectory s;
         enabledFolders := enabledFolders s |}
  | KeySecretAccessKey => fun value =>
      {| endpoint := endpoint s; accessKeyId := accessKeyId s;
         secretAccessKey := value; bucketName := bucketName s;
         region := region s; customDomain := customDomain s;
         pathPrefix := pathPrefix s;
         useYearSubdirectory := useYearSubdirectory s;
         enabledFolders := enabledFolders s |}
  | KeyBucketName => fun value =>
      {| endpoint := endpoint s; accessKeyId := accessKeyId s;
         secretAccessKey := secretAccessKey s; bucketName := value;
         region := region s; customDomain := customDomain s;
         pathPrefix := pathPrefix s;
         useYearSubdirectory := useYearSubdirectory s;
         enabledFolders := enabledFolders s |}
  | KeyRegion => fun value =>
      {| endpoint := endpoint s; accessKeyId := accessKeyId s;
         secretAccessKey := secretAccessKey s; bucketName := bucketName s;
         region := value; customDomain := customDomain s;
         pathPrefix := pathPrefix s;
         useYearSubdirectory := useYearSubdirectory s;
         enabledFolders := enabledFolders s |}
  | KeyCustomDomain => fun value =>
      {| endpoint := endpoint s; accessKeyId := accessKeyId s;
         secretAccessKey := secretAccessKey s; bucketName := bucketName s;
         region := region s; customDomain := value;
         pathPrefix := pathPrefix s;
         useYearSubdirectory := useYearSubdirectory s;
         enabledFolders := enabledFolders s |}
  | KeyPathPrefix => fun value =>
      {| endpoint := endpoint s; accessKeyId := accessKeyId s;
         secretAccessKey := secretAccessKey s; bucketName := bucketName s;
         region := region s; customDomain := customDomain s;
         pathPrefix := value;
         useYearSubdirectory := useYearSubdirectory s;
         enabledFolders := enabledFolders s |}
  | KeyUseYearSubdirectory => fun value =>
      {| endpoint := endpoint s; accessKeyId := accessKeyId s;
         secretAccessKey := secretAccessKey s; bucketName := bucketName s;
         region := region s; customDomain := customDomain s;
         pathPrefix := pathPrefix s;
         useYearSubdirectory := value;
         enabledFolders := enabledFolders s |}
  | KeyEnabledFolders => fun value =>
      {| endpoint := endpoint s; accessKeyId := accessKeyId s;
         secretAccessKey := secretAccessKey s; bucketName := bucketName s;
         region := region s; customDomain := customDomain s;
         pathPrefix := pathPrefix s;
         useYearSubdirectory := useYearSubdirectory s;
         enabledFolders := value |}
  end.

(** The click handler of the Add button in [renderFolderSettings]: the new
    folder list handed to [saveSettingsImmediate] under the key
    [enabledFolders], or nothing when the trimmed input is empty. *)
Definition addFolder (inputValue : string) (settings : R2UploaderSettings)
  : option (list string) :=
  if Js.truthy (Js.trim inputValue)
  then Some (enabledFolders settings ++ [Js.trim inputValue])%list
  else None.

(** The click handler of a Remove button: the list without the entry at
    [index]. *)
Definition removeFolder (index : nat) (settings : R2UploaderSettings)
  : list string :=
  Js.splice1 index (enabledFolders settings).

(** Browse, then Add: the chooser writes the chosen path into the input. *)
Definition browseThenAdd (folderPath : string) (settings : R2UploaderSettings)
  : option (list string) :=
  addFolder (onChooseItem folderPath) settings.

(** The label of an entry in the folder list ([folder || '(root)']). *)
Definition folderLabel (folder : string) : string :=
  if Js.truthy folder then folder else "(root)".

(** What [loadData] resolves to: nothing, or an object holding some of the
    fields ([Partial<R2UploaderSettings>]). *)
Record PartialSettings : Type := {
  stored_endpoint : option string;
  stored_accessKeyId : option string;
  stored_secretAccessKey : option string;
  stored_bucketName : option string;
  stored_region : option string;
  stored_customDomain : option string;
  stored_pathPrefix : option string;
  stored_useYearSubdirectory : option bool;
  stored_enabledFolders : option (list string)
}.

Definition orElse (A : Type) (over : option A) (base : A) : A :=
  match over with
  | Some v => v
  | None => base
  end.

(** [{ ...base, ...over }] *)
Definition spread (base : R2UploaderSettings) (over : option PartialSettings)
  : R2UploaderSettings :=
  match over with
  | None => base
  | Some o => {|
      endpoint := orElse (stored_endpoint o) (endpoint base);
      accessKeyId := orElse (stored_accessKeyId o) (accessKeyId base);
      secretAccessKey := orElse (stored_secretAccessKey o) (secretAccessKey base);
      bucketName := orElse (stored_bucketName o) (bucketName base);
      region := orElse (stored_region o) (region base);
      customDomain := orElse (stored_customDomain o) (customDomain base);
      pathPrefix := orElse (stored_pathPrefix o) (pathPrefix base);
      useYearSubdirectory :=
        orElse (stored_useYearSubdirectory o) (useYearSubdirectory base);
      enabledFolders := orElse (stored_enabledFolders o) (enabledFolders base)
    |}
  end.

(** [loadSettings]: the settings the plugin holds after loading. *)
Definition loadSettings (loadedData : option PartialSettings)
  : R2UploaderSettings :=
  spread DEFAULT_SETTINGS loadedData.

(** [saveSettings]: the data handed to [saveData], a full settings object. *)
Definition saveSettings (newSettings : R2UploaderSettings)
  : option PartialSettings :=
  Some {|
    stored_endpoint := Some (endpoint newSettings);
    stored_accessKeyId := Some (accessKeyId newSettings);
    stored_secretAccessKey := Some (secretAccessKey newSettings);
    stored_bucketName := Some (bucketName newSettings);
    stored_region := Some (region newSettings);
    stored_customDomain := Some (customDomain newSettings);
    stored_pathPrefix := Some (pathPrefix newSettings);
    stored_useYearSubdirectory := Some (useYearSubdirectory newSettings);
    stored_enabledFolders := Some (enabledFolders newSettings)
  |}.

(** The plugin instance: the settings it holds in memory and the data the
    host has stored for it. *)
Record Plugin : Type := {
  pluginSettings : R2UploaderSettings;
  pluginData : option PartialSettings
}.

(** [R2UploaderPlugin.saveSettings]: the field is assigned first, then
    [saveData] is awaited; [saveFails] is the value [saveData] rejects with,
    if it does. *)
Definition pluginSaveSettings (newSettings : R2UploaderSettings)
  (saveFails : option Js.Value) (plugin : Plugin) : Outcome unit * Plugin :=
  let assigned := {| pluginSettings := newSettings;
                     pluginData := pluginData plugin |} in
  match saveFails with
  | Some v => (Thrown v, assigned)
  | None => (Returned tt, {| pluginSettings := newSettings;
                             pluginData := saveSettings newSettings |})
  end.

(** [R2UploaderPlugin.loadSettings] on a plugin instance. *)
Definition pluginLoadSettings (plugin : Plugin) : Plugin :=
  {| pluginSettings := loadSettings (pluginData plugin);
     pluginData := pluginData plugin |}.

(** [saveSettingsImmediate] with the plugin's [getCurrentSettings] and
    [saveSettings]: the notices it raises and the plugin afterwards. *)
Definition saveSettingsImmediate (key : SettingKey) (value : valueType key)
  (saveFails : option Js.Value) (plugin : Plugin)
  : list HostCall * Plugin :=
  let latestSettings := pluginSettings plugin in
  let updatedSettings := updateSettings latestSettings key value in
  match pluginSaveSettings updatedSettings saveFails plugin with
  | (Returned _, plugin') => ([], plugin')
  | (Thrown error, plugin') =>
      ([CallNotice ("Failed to save settings: " ++ Js.toString error) 5000],
       plugin')
  end.

(* ================================================================== *)
(** * Observations on traces *)
(* ================================================================== *)

Definition isSend (c : HostCall) : bool :=
  match c with CallSend _ _ => true | _ => false end.

Definition networkCalls (calls : list HostCall) : list HostCall :=
  filter isSend calls.

Fixpoint noticesOf (calls : list HostCall) : list (string * Z) :=
  match calls with
  | [] => []
  | CallNotice message timeout :: rest => (message, timeout) :: noticesOf rest
  | _ :: rest => noticesOf rest
  end.

Fixpoint insertionsOf (calls : list HostCall) : list (string * EditorPosition) :=
  match calls with
  | [] => []
  | CallReplaceRange text pos :: rest => (text, pos) :: insertionsOf rest
  | _ :: rest => insertionsOf rest
  end.

(* ================================================================== *)
(** * Sample inputs *)
(* ================================================================== *)

(** The settings of the test suite ([createValidSettings]). *)
Definition validSettings : R2UploaderSettings := {|
  endpoint := "https://r2.cloudflarestorage.com";
  accessKeyId := "test-key";
  secretAccessKey := "test-secret";
  bucketName := "test-bucket";
  region := "auto";
  customDomain := "";
  pathPrefix := "images/";
  useYearSubdirectory := false;
  enabledFolders := []
|}.

Definition withEndpoint (e : string) (s : R2UploaderSettings)
  : R2UploaderSettings := {|
  endpoint := e;
  accessKeyId := accessKeyId s;
  secretAccessKey := secretAccessKey s;
  bucketName := bucketName s;
  region := region s;
  customDomain := customDomain s;
  pathPrefix := pathPrefix s;
  useYearSubdirectory := useYearSubdirectory s;
  enabledFolders := enabledFolders s
|}.

Definition withCustomDomain (d : string) (s : R2UploaderSettings)
  : R2UploaderSettings := {|
  endpoint := endpoint s;
  accessKeyId := accessKeyId s;
  secretAccessKey := secretAccessKey s;
  bucketName := bucketName s;
  region := region s;
  customDomain := d;
  pathPrefix := pathPrefix s;
  useYearSubdirectory := useYearSubdirectory s;
  enabledFolders := enabledFolders s
|}.

Definition withEnabledFolders (l : list string) (s : R2UploaderSettings)
  : R2UploaderSettings := {|
  endpoint := endpoint s;
  accessKeyId := accessKeyId s;
  secretAccessKey := secretAccessKey s;
  bucketName := bucketName s;
  region := region s;
  customDomain := customDomain s;
  pathPrefix := pathPrefix s;
  useYearSubdirectory := useYearSubdirectory s;
  enabledFolders := l
|}.

(** The clock of the test suite ([TEST_TIMESTAMP], year 2022), a store that
    acknowledges every PUT, the cursor at line 0, column 3. *)
Definition testWorld : World := {|
  now := 1640995200000;
  fullYear := 2022;
  respond := fun _ _ => None;
  cursor := {| line := 0; ch := 3 |};
  trace := []
|}.

Definition imageFile (name : string) : File.t := {|
  File.name := name;
  File.type := "image/png";
  File.size := 4;
  File.arrayBuffer := inr []
|}.

(** The names of the required settings with their values. *)
Definition requiredFields (settings : R2UploaderSettings)
  : list (string * string) :=
  [("endpoint", endpoint settings);
   ("accessKeyId", accessKeyId settings);
   ("secretAccessKey", secretAccessKey settings);
   ("bucketName", bucketName settings)].

Definition notDot (c : ascii) : bool := negb (Ascii.eqb c ".").

(** What an upload reads from the world: the clock and the store. *)
Definition env (w : World)
  : Z * Z * (S3Client -> PutObjectCommand -> option Js.Value) :=
  (now w, fullYear w, respond w).

(** The key [uploadFile] sends a file under. *)
Definition keyOf (settings : R2UploaderSettings) (fileName : string) (w : World)
  : string :=
  normalizedPrefix (pathPrefix settings) ++
  (if useYearSubdirectory settings
   then Js.numberToString (fullYear w) ++ "/" else "") ++
  fileName.

(** The PUT [uploadFile] issues for a file whose bytes were read. *)
Definition commandOf (settings : R2UploaderSettings) (file : File.t)
  (fileName : string) (bytes : list Byte.byte) (w : World) : PutObjectCommand :=
  {| Bucket := bucketName settings;
     Key := keyOf settings fileName w;
     Body := bytes;
     ContentType := File.type file |}.

(** The text of the remediation message after the [Upload failed: ] prefix. *)
Definition corsHint : string :=
  "CORS error. Please add " ++
  String dquote "app://obsidian.md" ++
  String dquote " to AllowedOrigins in your R2 bucket CORS policy.".

(** A file whose bytes cannot be read. *)
Definition unreadableFile (name : string) : File.t := {|
  File.name := name;
  File.type := "image/png";
  File.size := 4;
  File.arrayBuffer := inl (Js.Error "File read error")
|}.

(** A world whose store rejects every PUT with the given value. *)
Definition rejectingWorld (v : Js.Value) : World := {|
  now := 1640995200000;
  fullYear := 2022;
  respond := fun _ _ => Some v;
  cursor := {| line := 0; ch := 3 |};
  trace := []
|}.

Definition sampleLinks : list MarkdownLink.t :=
  [ {| MarkdownLink.displayName := "a.png";
       MarkdownLink.url := "https://cdn.example.com/1.png" |};
    {| MarkdownLink.displayName := "b.jpg";
       MarkdownLink.url := "https://cdn.example.com/2.jpg" |} ].

(** A character [sanitize] lets through. *)
Definition allowed (c : ascii) : bool :=
  negb (Sanitize.illegal c || Sanitize.control c).

(** The name with every illegal or control character replaced by [_]. *)
Fixpoint placeholders (s : string) : string :=
  match s with
  | EmptyString => EmptyString
  | String c s' => String (if allowed c then c else "_"%char) (placeholders s')
  end.

Fixpoint lastIs (p : ascii -> bool) (s : string) : bool :=
  match s with
  | EmptyString => false
  | String c EmptyString => p c
  | String _ s' => lastIs p s'
  end.

Fixpoint utf8Bytes (s : string) : nat :=
  match s with
  | EmptyString => 0
  | String c s' => Sanitize.utf8Length c + utf8Bytes s'
  end.

(** The nesting depth of square brackets at the end of [s], starting from
    [depth]; [None] when a closing bracket has no opening one. *)
Fixpoint bracketDepth (depth : nat) (s : string) : option nat :=
  match s with
  | EmptyString => Some depth
  | String c s' =>
      if Ascii.eqb c "[" then bracketDepth (S depth) s'
      else if Ascii.eqb c "]"
           then match depth with
                | O => None
                | S d => bracketDepth d s'
                end
           else bracketDepth depth s'
  end.

(** Markdown reads the description of [![description](url)] up to the
    bracket that closes it, so a description keeps the image syntax intact
    only if its square brackets come in balanced pairs. *)
Definition bracketsBalanced (s : string) : bool :=
  match bracketDepth 0 s with
  | Some O => true
  | _ => false
  end.

Definition uploaded (link : string) : UploadResult :=
  {| url := link; fileName := "1640995200000.png"; timestamp := 1640995200000 |}.

(** The world after some more calls. *)
Definition extended (calls : list HostCall) (w : World) : World :=
  {| now := now w; fullYear := fullYear w; respond := respond w;
     cursor := cursor w; trace := trace w ++ calls |}.

(** Each insertion is placed where the previous one ends, the first one at
    [p]: same line, the column advanced by the length of the inserted text. *)
Fixpoint consecutiveFrom (p : EditorPosition)
  (insertions : list (string * EditorPosition)) : Prop :=
  match insertions with
  | [] => True
  | (text, q) :: rest =>
      q = p /\
      consecutiveFrom {| line := line p; ch := ch p + String.length text |} rest
  end.

Fixpoint placeFrom (p : EditorPosition) (texts : list string)
  : list (string * EditorPosition) :=
  match texts with
  | [] => []
  | text :: rest =>
      (text, p) ::
      placeFrom {| line := line p; ch := ch p + String.length text |} rest
  end.

Definition insertCall (i : string * EditorPosition) : HostCall :=
  CallReplaceRange (fst i) (snd i).

Fixpoint joinAll (texts : list string) : string :=
  match texts with
  | [] => EmptyString
  | text :: rest => text ++ joinAll rest
  end.

Definition notLineFeed (c : ascii) : bool := negb (Ascii.eqb c "010").

(** The files of a batch with their outcomes. *)
Definition zipResults (files : list File.t) (results : list (Result UploadResult))
  : list FileProcessResult :=
  map (fun fr => {| originalName := File.name (fst fr); result := snd fr |})
    (combine files results).

(** The link texts of the outcomes that succeeded, in input order. *)
Fixpoint linksOfOutcomes (outcomes : list FileProcessResult) : list string :=
  match outcomes with
  | [] => []
  | r :: rest =>
      match result r with
      | Success data =>
          ("![" ++ Sanitize.sanitize (originalName r) "_" ++ "](" ++
           url data ++ ")") :: linksOfOutcomes rest
      | Failure _ => linksOfOutcomes rest
      end
  end.

(** The notice raised for one outcome. *)
Definition noticeCall (r : FileProcessResult) : HostCall :=
  match result r with
  | Success _ =>
      CallNotice ("Successfully uploaded " ++
                  Sanitize.sanitize (originalName r) "_") 2000
  | Failure error =>
      CallNotice ("Failed to upload " ++ Sanitize.sanitize (originalName r) "_" ++
                  ": " ++ error) 0
  end.

Definition successNotice (file : File.t) : HostCall :=
  CallNotice ("Successfully uploaded " ++
              Sanitize.sanitize (File.name file) "_") 2000.

(** The unique name [processFiles] gives a file. *)
Definition uniqueNameOf (file : File.t) (w : World) : string :=
  Js.numberToString (now w) ++ "." ++
  Js.optionToString (Js.at_last (Js.split "." (File.name file))).

(** The PUT an upload of the batch issues: none when the settings are
    incomplete or the file cannot be read. *)
Definition putsOf (settings : R2UploaderSettings) (w : World) (file : File.t)
  : list HostCall :=
  match validateSettings settings, File.arrayBuffer file with
  | Success _, inr bytes =>
      [CallSend (createS3Client settings)
         (commandOf settings file (uniqueNameOf file w) bytes w)]
  | _, _ => []
  end.


Definition isNotice (c : HostCall) : bool :=
  match c with CallNotice _ _ => true | _ => false end.

Definition isReplaceRange (c : HostCall) : bool :=
  match c with CallReplaceRange _ _ => true | _ => false end.

(** [data[key]] for stored data. *)
Definition storedValue (key : SettingKey) (data : PartialSettings)
  : option (valueType key) :=
  match key with
  | KeyEndpoint => stored_endpoint data
  | KeyAccessKeyId => stored_accessKeyId data
  | KeySecretAccessKey => stored_secretAccessKey data
  | KeyBucketName => stored_bucketName data
  | KeyRegion => stored_region data
  | KeyCustomDomain => stored_customDomain data
  | KeyPathPrefix => stored_pathPrefix data
  | KeyUseYearSubdirectory => stored_useYearSubdirectory data
  | KeyEnabledFolders => stored_enabledFolders data
  end.

Definition firstIs (p : ascii -> bool) (s : string) : bool :=
  match s with
  | EmptyString => false
  | String c _ => p c
  end.

(** The stored data of the test [should merge partial settings with
    defaults]: only the bucket and the prefix. *)
Definition partialData : PartialSettings := {|
  stored_endpoint := None;
  stored_accessKeyId := None;
  stored_secretAccessKey := None;
  stored_bucketName := Some "custom-bucket";
  stored_region := None;
  stored_customDomain := None;
  stored_pathPrefix := Some "custom-prefix/";
  stored_useYearSubdirectory := None;
  stored_enabledFolders := None
|}.

Definition isStop (c : HostCall) : bool :=
  match c with
  | CallStopPropagation | CallStopImmediatePropagation => true
  | _ => false
  end.

Definition readable (file : File.t) : bool :=
  match File.arrayBuffer file with inr _ => true | inl _ => false end.

(** All four required settings are present. *)
Definition complete (settings : R2UploaderSettings) : bool :=
  Js.truthy (endpoint settings) && Js.truthy (accessKeyId settings) &&
  Js.truthy (secretAccessKey settings) && Js.truthy (bucketName settings).

(** The folder part of the gate. *)
Definition folderOpen (app : App) (settings : R2UploaderSettings) : bool :=
  match enabledFolders settings with
  | [] => true
  | _ :: _ => isInEnabledFolder (getCurrentFilePath app) (enabledFolders settings)
  end.

Definition folderNotice : HostCall :=
  CallNotice "Current folder is not enabled for uploads" 4000.

Definition incompleteNotice : HostCall :=
  CallNotice
    "R2 uploader settings are incomplete. Please check the plugin settings."
    4000.

Definition pdfFile (name : string) : File.t := {|
  File.name := name;
  File.type := "application/pdf";
  File.size := 4;
  File.arrayBuffer := inr []
|}.

Definition activeApp (path : string) : App :=
  {| activeFile := Some path; activeMarkdownView := true |}.

(* ================================================================== *)
(** * Facts about the string primitives *)
(* ================================================================== *)

Lemma truthy_false_iff (s : string) : Js.truthy s = false <-> s = "".
Proof.
  unfold Js.truthy. destruct s; simpl; split; intro H; try reflexivity;
    discriminate.
Qed.

Lemma truthy_true_iff (s : string) : Js.truthy s = true <-> s <> "".
Proof.
  unfold Js.truthy. destruct s; simpl; split; intro H;
    try reflexivity; try discriminate. now elim H.
Qed.

Lemma prefix_app (p s : string) : prefix p (p ++ s) = true.
Proof.
  induction p as [|c p IH]; simpl.
  - now destruct s.
  - destruct (ascii_dec c c) as [_|n]; [exact IH | now elim n].
Qed.

Lemma prefix_exists (p s : string) :
  prefix p s = true -> exists r, s = p ++ r.
Proof.
  revert s. induction p as [|c p IH]; intros s H.
  - now exists s.
  - destruct s as [|d s]; simpl in H; [discriminate|].
    destruct (ascii_dec c d) as [->|_]; [|discriminate].
    destruct (IH _ H) as [r ->]. now exists r.
Qed.

Lemma drop_app (p s : string) : Js.drop (String.length p) (p ++ s) = s.
Proof. induction p; simpl; auto. Qed.

Lemma app_assoc_str (a b c : string) : (a ++ b) ++ c = a ++ b ++ c.
Proof. induction a; simpl; congruence. Qed.

Lemma app_empty_r (a : string) : a ++ "" = a.
Proof. induction a; simpl; congruence. Qed.

Lemma length_app_str (a b : string) :
  String.length (a ++ b) = (String.length a + String.length b)%nat.
Proof. induction a; simpl; congruence. Qed.

Lemma includes_unfold (s p : string) :
  Js.includes s p =
  prefix p s || match s with
                | EmptyString => false
                | String _ s' => Js.includes s' p
                end.
Proof. destruct s; reflexivity. Qed.

Lemma includes_app (a p b : string) : Js.includes (a ++ p ++ b) p = true.
Proof.
  induction a as [|c a IH].
  - simpl. rewrite includes_unfold, prefix_app. reflexivity.
  - simpl. rewrite IH. apply orb_true_r.
Qed.

Lemma includes_false_prefix (s p : string) :
  Js.includes s p = false -> prefix p s = false.
Proof. destruct s; simpl; intro H; apply orb_false_iff in H; tauto. Qed.

Lemma replace_unfold (s pat rep : string) :
  Js.replace s pat rep =
  if prefix pat s then rep ++ Js.drop (String.length pat) s
  else match s with
       | EmptyString => EmptyString
       | String c s' => String c (Js.replace s' pat rep)
       end.
Proof. destruct s; reflexivity. Qed.

Lemma replace_absent (s pat rep : string) :
  Js.includes s pat = false -> Js.replace s pat rep = s.
Proof.
  induction s as [|c s IH]; intro H; rewrite replace_unfold;
    rewrite (includes_false_prefix _ _ H); [reflexivity|].
  simpl in H. apply orb_false_iff in H. destruct H as [_ H].
  now rewrite (IH H).
Qed.

Lemma replace_prefix (pat rest : string) :
  Js.replace (pat ++ rest) pat "" = rest.
Proof. rewrite replace_unfold, prefix_app, drop_app. reflexivity. Qed.

Lemma endsWith_unfold (s p : string) :
  Js.endsWith s p =
  (s =? p) || match s with
              | EmptyString => false
              | String _ s' => Js.endsWith s' p
              end.
Proof. destruct s; reflexivity. Qed.

Lemma endsWith_app (a p : string) : Js.endsWith (a ++ p) p = true.
Proof.
  induction a as [|c a IH]; simpl.
  - rewrite endsWith_unfold, String.eqb_refl. reflexivity.
  - rewrite IH. apply orb_true_r.
Qed.

Lemma endsWith_exists (s p : string) :
  Js.endsWith s p = true -> exists a, s = a ++ p.
Proof.
  induction s as [|c s IH]; intro H; rewrite endsWith_unfold in H;
    apply orb_true_iff in H; destruct H as [H|H];
    try (apply String.eqb_eq in H; rewrite H; now exists "").
  - discriminate.
  - destruct (IH H) as [a ->]. now exists (String c a).
Qed.

Lemma endsWith_longer (s p : string) :
  (String.length s < String.length p)%nat -> Js.endsWith s p = false.
Proof.
  intro H. destruct (Js.endsWith s p) eqn:E; [|reflexivity].
  destruct (endsWith_exists _ _ E) as [a ->].
  rewrite length_app_str in H. lia.
Qed.

Lemma app_last_inj (a b : string) (c : ascii) :
  a ++ String c "" = b ++ String c "" -> a = b.
Proof.
  revert b. induction a as [|x a IH]; intros [|y b] H; simpl in H.
  - reflexivity.
  - injection H as _ H. destruct b; discriminate.
  - injection H as _ H. destruct a; discriminate.
  - injection H as -> H. f_equal. now apply IH.
Qed.

Lemma every_app (p : ascii -> bool) (a b : string) :
  Js.every p (a ++ b) = Js.every p a && Js.every p b.
Proof. induction a; simpl; [reflexivity|]. now rewrite IHa, andb_assoc. Qed.

(** Two texts cut at their first dot agree on the part before it. *)
Lemma app_dot_inj (a b x y : string) :
  Js.every notDot a = true -> Js.every notDot b = true ->
  a ++ String "." x = b ++ String "." y -> a = b.
Proof.
  revert b. induction a as [|c a IH]; intros [|d b] Ha Hb H; simpl in *.
  - reflexivity.
  - injection H as <- _. discriminate.
  - injection H as -> _. discriminate.
  - injection H as -> H. apply andb_true_iff in Ha, Hb.
    f_equal. apply IH; tauto.
Qed.

(* ================================================================== *)
(** * Decimal rendering of numbers *)
(* ================================================================== *)

Lemma string_of_uint_notDot (d : Decimal.uint) :
  Js.every notDot (NilEmpty.string_of_uint d) = true.
Proof. induction d; simpl; auto. Qed.

Lemma numberToString_notDot (n : Z) :
  Js.every notDot (Js.numberToString n) = true.
Proof.
  unfold Js.numberToString. destruct (Z.to_int n); simpl;
    apply string_of_uint_notDot.
Qed.

Lemma numberToString_inj (n m : Z) :
  Js.numberToString n = Js.numberToString m -> n = m.
Proof.
  unfold Js.numberToString. intro H. apply DecimalZ.to_int_inj.
  assert (E : Some (Z.to_int n) = Some (Z.to_int m))
    by (rewrite <- !NilEmpty.isi; now rewrite H).
  now injection E.
Qed.

Lemma fourDigits_check :
  forallb (fun k => (String.length (Js.numberToString (1000 + Z.of_nat k)) =? 4)%nat)
    (seq 0 (Z.to_nat 9000)) = true.
Proof. vm_compute. reflexivity. Qed.

Lemma numberToString_fourDigits (y : Z) :
  (1000 <= y <= 9999)%Z -> String.length (Js.numberToString y) = 4%nat.
Proof.
  intro H. pose proof fourDigits_check as C.
  rewrite forallb_forall in C.
  specialize (C (Z.to_nat (y - 1000))).
  replace (1000 + Z.of_nat (Z.to_nat (y - 1000)))%Z with y in C by lia.
  apply Nat.eqb_eq, C, in_seq. lia.
Qed.

(* ================================================================== *)
(** * Key and URL builder *)
(* ================================================================== *)

Lemma normalizedPrefix_endsWith (pathPrefix : string) :
  Js.endsWith (normalizedPrefix pathPrefix) "/" = true.
Proof.
  unfold normalizedPrefix. destruct (Js.endsWith pathPrefix "/") eqn:E.
  - exact E.
  - apply endsWith_app.
Qed.

Lemma normalizedPrefix_single (pathPrefix : string) :
  Js.endsWith pathPrefix "//" = false ->
  Js.endsWith (normalizedPrefix pathPrefix) "//" = false.
Proof.
  intro H. unfold normalizedPrefix.
  destruct (Js.endsWith pathPrefix "/") eqn:E; [exact H|].
  destruct (Js.endsWith (pathPrefix ++ "/") "//") eqn:F; [|reflexivity].
  destruct (endsWith_exists _ _ F) as [a Ha].
  change "//" with ("/" ++ "/") in Ha. rewrite <- app_assoc_str in Ha.
  apply app_last_inj in Ha. rewrite Ha, endsWith_app in E. discriminate.
Qed.

(** C1, as stated, fails: an endpoint written with the [http://] scheme
    keeps its scheme in the URL, because only the text [https://] is
    removed. *)
Lemma createUrl_http_scheme_kept :
  customDomain (withEndpoint "http://r2.example.com" validSettings) = "" /\
  createUrl (withEndpoint "http://r2.example.com" validSettings) "images/a.png"
  = "https://test-bucket.http://r2.example.com/images/a.png" /\
  createUrl (withEndpoint "http://r2.example.com" validSettings) "images/a.png"
  <> "https://test-bucket.r2.example.com/images/a.png".
Proof. repeat split. discriminate. Qed.

(** C1 (amended): with an empty custom domain, [createUrl] returns
    [https://<bucket>.<e>/<key>] where [e] is the endpoint with its first
    occurrence of [https://] removed: an endpoint [https://<host>] gives
    [<host>], and an endpoint that does not contain [https://] (for instance
    one written with [http://]) is used as it is.  With a non-empty custom
    domain it returns [<domain>/<key>], whatever the bucket and endpoint. *)
Theorem createUrl_spec (settings : R2UploaderSettings) (key : string) :
  (customDomain settings <> "" ->
   createUrl settings key = customDomain settings ++ "/" ++ key) /\
  (customDomain settings = "" ->
   createUrl settings key =
   "https://" ++ bucketName settings ++ "." ++
   Js.replace (endpoint settings) "https://" "" ++ "/" ++ key) /\
  (customDomain settings = "" ->
   forall host, endpoint settings = "https://" ++ host ->
   createUrl settings key =
   "https://" ++ bucketName settings ++ "." ++ host ++ "/" ++ key) /\
  (customDomain settings = "" ->
   Js.includes (endpoint settings) "https://" = false ->
   createUrl settings key =
   "https://" ++ bucketName settings ++ "." ++ endpoint settings ++ "/" ++ key).
Proof.
  unfold createUrl. repeat split.
  - intro H. apply truthy_true_iff in H. now rewrite H.
  - intro H. apply truthy_false_iff in H. rewrite H.
    now rewrite !app_assoc_str.
  - intros H host E. apply truthy_false_iff in H. rewrite H, E.
    rewrite replace_prefix. now rewrite !app_assoc_str.
  - intros H E. apply truthy_false_iff in H. rewrite H.
    rewrite (replace_absent _ _ _ E). now rewrite !app_assoc_str.
Qed.

Lemma createUrl_spec_witness :
  createUrl validSettings "images/test.png"
  = "https://test-bucket.r2.cloudflarestorage.com/images/test.png" /\
  createUrl (withCustomDomain "https://images.hnagato.com" validSettings)
    "images/test.png"
  = "https://images.hnagato.com/images/test.png".
Proof.
  split.
  - exact (proj1 (proj2 (proj2 (createUrl_spec validSettings "images/test.png")))
             eq_refl "r2.cloudflarestorage.com" eq_refl).
  - apply (proj1 (createUrl_spec
                    (withCustomDomain "https://images.hnagato.com" validSettings)
                    "images/test.png")).
    discriminate.
Defined.

(** C3, as stated, fails: a prefix that already ends in two separators is
    kept as it is, so the normalized prefix does not end in exactly one. *)
Lemma generateFileKey_double_separator :
  normalizedPrefix "images//" = "images//" /\
  Js.endsWith (normalizedPrefix "images//") "//" = true /\
  generateFileKey "images//" "f.png" false testWorld
  = (Returned "images//f.png", testWorld).
Proof. repeat split. Qed.

(** C3 (amended): the key is the prefix normalized to end in a separator
    (the prefix itself when it already ends in one, the prefix followed by
    one separator otherwise; so it ends in exactly one separator whenever the
    given prefix does not already end in two), followed, when the flag is
    set, by the current year (four digits for the years 1000 to 9999) and a
    separator, followed by the file name.  The clock is only read. *)
Theorem generateFileKey_spec (pathPrefix fileName : string)
  (useYearSubdirectory : bool) (w : World) :
  generateFileKey pathPrefix fileName useYearSubdirectory w =
  (Returned (normalizedPrefix pathPrefix ++
             (if useYearSubdirectory
              then Js.numberToString (fullYear w) ++ "/" else "") ++
             fileName), w) /\
  Js.endsWith (normalizedPrefix pathPrefix) "/" = true /\
  (Js.endsWith pathPrefix "/" = true -> normalizedPrefix pathPrefix = pathPrefix) /\
  (Js.endsWith pathPrefix "/" = false ->
   normalizedPrefix pathPrefix = pathPrefix ++ "/") /\
  (Js.endsWith pathPrefix "//" = false ->
   Js.endsWith (normalizedPrefix pathPrefix) "//" = false) /\
  ((1000 <= fullYear w <= 9999)%Z ->
   String.length (Js.numberToString (fullYear w)) = 4%nat) /\
  generateFileKey "images" "f.png" false w = (Returned "images/f.png", w) /\
  (fullYear w = 2022%Z ->
   generateFileKey "images/" "f.png" true w = (Returned "images/2022/f.png", w)).
Proof.
  repeat split.
  - destruct useYearSubdirectory; reflexivity.
  - apply normalizedPrefix_endsWith.
  - intro H. unfold normalizedPrefix. now rewrite H.
  - intro H. unfold normalizedPrefix. now rewrite H.
  - apply normalizedPrefix_single.
  - now apply numberToString_fourDigits.
  - intro H. unfold generateFileKey, bind, getFullYear, ret. now rewrite H.
Qed.

Lemma generateFileKey_spec_witness :
  generateFileKey "images/" "f.png" true testWorld
  = (Returned "images/2022/f.png", testWorld) /\
  String.length (Js.numberToString (fullYear testWorld)) = 4%nat /\
  Js.endsWith (normalizedPrefix "images") "//" = false.
Proof.
  pose proof (generateFileKey_spec "images" "f.png" true testWorld)
    as (_ & _ & _ & _ & H1 & H2 & _ & H3).
  split; [|split].
  - apply H3. reflexivity.
  - apply H2. simpl. lia.
  - apply H1. reflexivity.
Defined.

(* ================================================================== *)
(** * Unique file names *)
(* ================================================================== *)

Lemma split_not_nil (sep : ascii) (s : string) : Js.split sep s <> [].
Proof.
  induction s as [|c s IH]; simpl; [discriminate|].
  destruct (Ascii.eqb c sep); [discriminate|].
  destruct (Js.split sep s); discriminate.
Qed.

(** The last element of [name.split('.')]: the whole name when it has no
    dot, the text after its last dot otherwise. *)
Lemma split_last (s : string) :
  exists seg,
    Js.at_last (Js.split "." s) = Some seg /\
    Js.every notDot seg = true /\
    ((Js.split "." s = [seg] /\ s = seg) \/
     (exists h x t pre, Js.split "." s = h :: x :: t /\
                        s = pre ++ String "." seg)).
Proof.
  induction s as [|c s (seg & Hl & Hn & IH)].
  - exists "". simpl. auto.
  - simpl. destruct (Ascii.eqb c ".") eqn:E.
    + apply Ascii.eqb_eq in E. subst c. exists seg.
      destruct IH as [[Hs ->] | (h & x & t & pre & Hs & ->)]; rewrite Hs in *.
      * repeat split; auto. right. exists "", seg, [], "". auto.
      * repeat split; auto. right.
        exists "", h, (x :: t), (String "." pre). auto.
    + destruct IH as [[Hs ->] | (h & x & t & pre & Hs & ->)]; rewrite Hs in *.
      * exists (String c seg). simpl. unfold notDot at 1. rewrite E. simpl.
        repeat split; auto.
      * exists seg. repeat split; auto. right.
        exists (String c h), x, t, (String c pre). auto.
Qed.

(** C4: at epoch-millis [T] the unique name is [<T>.<lastSegment>], where
    the last segment has no dot and is the whole original name when that has
    no dot, the text after its last dot otherwise (so [photo.jpg] gives
    [<T>.jpg]); the clock is only read; and two calls at distinct
    timestamps return distinct names, whatever the two original names. *)
Theorem generateUniqueFileName_spec :
  (forall originalName w, exists lastSegment,
     generateUniqueFileName originalName w =
     (Returned (Js.numberToString (now w) ++ "." ++ lastSegment), w) /\
     Js.every notDot lastSegment = true /\
     ((Js.every notDot originalName = true /\ lastSegment = originalName) \/
      (exists before, originalName = before ++ "." ++ lastSegment))) /\
  (forall w, generateUniqueFileName "photo.jpg" w =
             (Returned (Js.numberToString (now w) ++ ".jpg"), w)) /\
  (forall name1 name2 w1 w2, now w1 <> now w2 ->
     fst (generateUniqueFileName name1 w1) <>
     fst (generateUniqueFileName name2 w2)).
Proof.
  assert (G : forall originalName w, exists lastSegment,
     generateUniqueFileName originalName w =
     (Returned (Js.numberToString (now w) ++ "." ++ lastSegment), w) /\
     Js.every notDot lastSegment = true /\
     ((Js.every notDot originalName = true /\ lastSegment = originalName) \/
      (exists before, originalName = before ++ "." ++ lastSegment))).
  { intros name w. destruct (split_last name) as (seg & Hl & Hn & H).
    exists seg. unfold generateUniqueFileName, bind, dateNow, ret.
    rewrite Hl. simpl. repeat split; auto.
    destruct H as [[_ <-] | (_ & _ & _ & pre & _ & ->)]; [left|right]; auto.
    now exists pre. }
  split; [exact G|]. split; [reflexivity|].
  intros name1 name2 w1 w2 Hne.
  destruct (G name1 w1) as (s1 & -> & _ & _).
  destruct (G name2 w2) as (s2 & -> & _ & _).
  simpl. intro H. injection H as H. apply Hne.
  apply numberToString_inj.
  eapply app_dot_inj; [apply numberToString_notDot ..| exact H].
Qed.

Lemma generateUniqueFileName_spec_witness :
  fst (generateUniqueFileName "image.png" testWorld) = Returned "1640995200000.png" /\
  (fst (generateUniqueFileName "image.png" testWorld) =
   fst (generateUniqueFileName "image.png"
          {| now := 1640995200001; fullYear := 2022;
             respond := respond testWorld; cursor := cursor testWorld;
             trace := [] |}) -> False).
Proof.
  split; [reflexivity|].
  apply (proj2 (proj2 generateUniqueFileName_spec)). simpl. discriminate.
Defined.

(* ================================================================== *)
(** * The uploader *)
(* ================================================================== *)

Lemma validateSettings_complete (settings : R2UploaderSettings) :
  missingSettings settings = [] -> validateSettings settings = Success settings.
Proof. unfold validateSettings. now intros ->. Qed.

Lemma validateSettings_cases (settings : R2UploaderSettings) :
  validateSettings settings = Success settings \/
  exists error, validateSettings settings = Failure error.
Proof.
  unfold validateSettings.
  destruct (0 <? List.length (missingSettings settings))%nat; eauto.
Qed.

(** [uploadFile] path by path. *)
Lemma uploadFile_run (settings : R2UploaderSettings) (file : File.t)
  (fileName : string) (w : World) :
  uploadFile settings file fileName w =
  match validateSettings settings with
  | Failure error => (Returned (Failure error), w)
  | Success _ =>
      match File.arrayBuffer file with
      | inl v =>
          (Returned (Failure ("Failed to read file: " ++ Js.toString v)), w)
      | inr bytes =>
          let client := createS3Client settings in
          let command := commandOf settings file fileName bytes w in
          match respond w client command with
          | Some v =>
              (Returned (Failure (getErrorMessage v)),
               logged (CallSend client command) w)
          | None =>
              (Returned (Success {| url := createUrl settings
                                             (keyOf settings fileName w);
                                    fileName := fileName;
                                    timestamp := now w |}),
               logged (CallSend client command) w)
          end
      end
  end.
Proof.
  unfold uploadFile. destruct (validateSettings settings); [|reflexivity].
  unfold fileToFileInfo, arrayBufferOf, bind, tryCatch, ret, throw.
  destruct (File.arrayBuffer file) as [v|bytes]; [reflexivity|].
  unfold generateFileKey, send, record, bind, getFullYear, dateNow, ret,
    commandOf, keyOf.
  destruct (useYearSubdirectory settings); simpl;
    match goal with |- context [respond w ?c ?k] =>
      destruct (respond w c k) end; reflexivity.
Qed.

(** C2: when a required setting is empty, [uploadFile] returns a failure,
    leaves the world as it was (nothing is sent), and its message is
    [Missing required settings: ] followed by the names of the empty fields:
    a required field is named in the message exactly when it is empty. *)
Theorem uploadFile_missing_settings (settings : R2UploaderSettings)
  (file : File.t) (fileName : string) (w : World) :
  endpoint settings = "" \/ accessKeyId settings = "" \/
  secretAccessKey settings = "" \/ bucketName settings = "" ->
  exists message,
    uploadFile settings file fileName w = (Returned (Failure message), w) /\
    message =
    "Missing required settings: " ++ Js.join ", " (missingSettings settings) /\
    (forall field value, In (field, value) (requiredFields settings) ->
       (In field (missingSettings settings) <-> value = "") /\
       (Js.includes message field = true <-> value = "")).
Proof.
  intro H. rewrite uploadFile_run. unfold validateSettings, requiredFields.
  destruct settings as [e a s b r d p u f]. simpl in H.
  unfold missingSettings. simpl.
  destruct e, a, s, b;
    try (exfalso; destruct H as [H|[H|[H|H]]]; discriminate);
    simpl; eexists; (split; [reflexivity|]); (split; [reflexivity|]);
    intros field value [E|[E|[E|[E|[]]]]]; injection E as <- <-;
    (split; split; intro X; try reflexivity; try discriminate;
     try (vm_compute in X; discriminate);
     simpl; try tauto;
     try (simpl in X; repeat destruct X as [X|X]; discriminate || contradiction)).
Qed.

Lemma uploadFile_missing_settings_witness :
  exists message,
    uploadFile (withEndpoint "" validSettings) (imageFile "test.png")
      "test.png" testWorld = (Returned (Failure message), testWorld) /\
    message = "Missing required settings: endpoint".
Proof.
  destruct (uploadFile_missing_settings (withEndpoint "" validSettings)
              (imageFile "test.png") "test.png" testWorld
              (or_introl eq_refl)) as (message & H1 & H2 & _).
  exists message. split; [exact H1 | exact H2].
Defined.

Lemma corsMessage_hint : corsMessage = "Upload failed: " ++ corsHint.
Proof. reflexivity. Qed.

Lemma app_inv_head_str (p a b : string) : p ++ a = p ++ b -> a = b.
Proof. induction p; simpl; intro H; [exact H|]. injection H as H. auto. Qed.

(** C7: an error thrown by the transport yields the remediation message,
    which tells the user to change the bucket's CORS policy, when it is a
    [TypeError] whose message contains [Failed to fetch]; every other error
    yields [Upload failed: ] followed by the text of the cause.  (The generic
    message reads like the remediation message only when the cause text is
    itself the remediation text.)  [uploadFile] returns that message as its
    failure when the store rejects the PUT. *)
Theorem getErrorMessage_spec (error : Js.Value) :
  (isFetchFailure error = true <->
   exists name message,
     error = Js.ErrorObject true name message /\
     Js.includes message "Failed to fetch" = true) /\
  (isFetchFailure error = true ->
   getErrorMessage error = corsMessage /\
   Js.includes (getErrorMessage error) "AllowedOrigins in your R2 bucket CORS policy"
   = true) /\
  (isFetchFailure error = false ->
   getErrorMessage error = "Upload failed: " ++ Js.toString error /\
   Js.includes (getErrorMessage error) (Js.toString error) = true) /\
  (getErrorMessage error = corsMessage ->
   isFetchFailure error = true \/ Js.toString error = corsHint) /\
  (forall settings file fileName bytes w,
     missingSettings settings = [] ->
     File.arrayBuffer file = inr bytes ->
     (forall client command, respond w client command = Some error) ->
     fst (uploadFile settings file fileName w) =
     Returned (Failure (getErrorMessage error))).
Proof.
  split; [|split; [|split; [|split]]].
  - split.
    + destruct error as [[|] name message|s]; simpl; try discriminate.
      intro H. now exists name, message.
    + intros (name & message & -> & H). exact H.
  - intro H. unfold getErrorMessage. rewrite H. split; reflexivity.
  - intro H. unfold getErrorMessage. rewrite H. split; [reflexivity|].
    rewrite <- (app_empty_r (Js.toString error)) at 1.
    apply includes_app.
  - unfold getErrorMessage. destruct (isFetchFailure error); [now left|].
    rewrite corsMessage_hint. intro H. right.
    exact (app_inv_head_str _ _ _ H).
  - intros settings file fileName bytes w Hs Hf Hr.
    rewrite uploadFile_run, (validateSettings_complete _ Hs), Hf. simpl.
    now rewrite Hr.
Qed.

Lemma getErrorMessage_spec_witness :
  getErrorMessage (Js.TypeError "Failed to fetch") = corsMessage /\
  getErrorMessage (Js.Error "Network error")
  = "Upload failed: Error: Network error" /\
  fst (uploadFile validSettings (imageFile "test.png") "test.png"
         (rejectingWorld (Js.Error "Network error")))
  = Returned (Failure "Upload failed: Error: Network error").
Proof.
  split; [|split].
  - apply (proj1 (proj2 (getErrorMessage_spec (Js.TypeError "Failed to fetch")))).
    reflexivity.
  - apply (proj1 (proj2 (proj2 (getErrorMessage_spec (Js.Error "Network error"))))).
    reflexivity.
  - apply (proj2 (proj2 (proj2 (proj2
             (getErrorMessage_spec (Js.Error "Network error")))))
             validSettings (imageFile "test.png") "test.png" []
             (rejectingWorld (Js.Error "Network error")));
      reflexivity.
Defined.

(* ================================================================== *)
(** * Batches *)
(* ================================================================== *)

Lemma env_logged (c : HostCall) (w : World) : env (logged c w) = env w.
Proof. reflexivity. Qed.

(** An upload returns; what it returns depends on the clock and the store
    only, and it changes neither. *)
Lemma uploadFile_env (settings : R2UploaderSettings) (file : File.t)
  (fileName : string) (w : World) :
  exists r w',
    uploadFile settings file fileName w = (Returned r, w') /\
    env w' = env w /\
    forall w2, env w2 = env w ->
      fst (uploadFile settings file fileName w2) = Returned r.
Proof.
  assert (D : forall w2, env w2 = env w ->
              uploadFile settings file fileName w2 =
              (fst (uploadFile settings file fileName w),
               match validateSettings settings, File.arrayBuffer file with
               | Success _, inr bytes =>
                   logged (CallSend (createS3Client settings)
                             (commandOf settings file fileName bytes w)) w2
               | _, _ => w2
               end)).
  { intros w2 E. unfold env in E. injection E as E1 E2 E3.
    rewrite !uploadFile_run. unfold commandOf, keyOf. rewrite E1, E2, E3.
    destruct (validateSettings settings); [|reflexivity].
    destruct (File.arrayBuffer file); [reflexivity|]. simpl.
    match goal with |- context [respond w ?c ?k] =>
      destruct (respond w c k) end; reflexivity. }
  assert (R : exists r, fst (uploadFile settings file fileName w) = Returned r).
  { rewrite uploadFile_run.
    destruct (validateSettings settings); [|simpl; eauto].
    destruct (File.arrayBuffer file); [simpl; eauto|]. cbv zeta.
    destruct (respond w _ _); simpl; eauto. }
  destruct R as [r Hr]. exists r. eexists. split; [|split].
  - rewrite (D w eq_refl), Hr. reflexivity.
  - destruct (validateSettings settings); [|reflexivity].
    destruct (File.arrayBuffer file); reflexivity.
  - intros w2 E. now rewrite (D w2 E).
Qed.

Lemma uploadOne_env (settings : R2UploaderSettings) (file : File.t) (w : World) :
  exists r w',
    uploadOne settings file w = (Returned r, w') /\
    env w' = env w /\
    forall w2, env w2 = env w -> fst (uploadOne settings file w2) = Returned r.
Proof.
  unfold uploadOne, generateUniqueFileName, bind, dateNow, ret.
  destruct (uploadFile_env settings file
              (Js.numberToString (now w) ++ "." ++
               Js.optionToString (Js.at_last (Js.split "." (File.name file)))) w)
    as (r & w' & H & E & I).
  exists r, w'. split; [exact H|]. split; [exact E|].
  intros w2 E2. rewrite <- (I w2 E2).
  unfold env in E2. injection E2 as -> _ _. reflexivity.
Qed.

Lemma processFiles_env (settings : R2UploaderSettings) (files : list File.t) :
  forall w, exists results w',
    processFiles files settings w = (Returned results, w') /\
    env w' = env w /\
    List.length results = List.length files /\
    forall i file, nth_error files i = Some file ->
      exists r, fst (uploadOne settings file w) = Returned r /\
                nth_error results i = Some r.
Proof.
  unfold processFiles. induction files as [|f files IH]; intro w.
  - exists [], w. repeat split. intros [|i] file H; discriminate.
  - destruct (uploadOne_env settings f w) as (r & w1 & H1 & E1 & I1).
    destruct (IH w1) as (rs & w2 & H2 & E2 & L & N).
    exists (r :: rs), w2. simpl. unfold bind at 1. rewrite H1.
    unfold bind at 1. rewrite H2. unfold ret.
    split; [reflexivity|]. split; [congruence|]. split; [simpl; congruence|].
    intros [|i] file Hf; simpl in Hf.
    + injection Hf as <-. exists r. now rewrite H1.
    + destruct (N i file Hf) as (r' & Hr & Hn). exists r'. split; [|exact Hn].
      destruct (uploadOne_env settings file w) as (r0 & w0 & H0 & _ & I0).
      rewrite H0. simpl. rewrite <- (I0 w1 E1). exact Hr.
Qed.

(** C9: [uploadFile] always returns a result and never throws: incomplete
    settings, a file that cannot be read and a rejected PUT each become a
    failure value.  So a batch never throws either: it returns one result
    per file, in input order, and the result of each file is the one its own
    upload returns when it runs alone in the same world, whatever happens to
    the other files. *)
Theorem uploadFile_never_throws :
  (forall settings file fileName w, exists r w',
     uploadFile settings file fileName w = (Returned r, w')) /\
  (forall settings file fileName w error,
     validateSettings settings = Failure error ->
     uploadFile settings file fileName w = (Returned (Failure error), w)) /\
  (forall settings file fileName w v,
     missingSettings settings = [] -> File.arrayBuffer file = inl v ->
     uploadFile settings file fileName w =
     (Returned (Failure ("Failed to read file: " ++ Js.toString v)), w)) /\
  (forall settings file fileName w bytes v,
     missingSettings settings = [] -> File.arrayBuffer file = inr bytes ->
     respond w (createS3Client settings)
       (commandOf settings file fileName bytes w) = Some v ->
     fst (uploadFile settings file fileName w) =
     Returned (Failure (getErrorMessage v))) /\
  (forall files settings w, exists results w',
     processFiles files settings w = (Returned results, w') /\
     List.length results = List.length files /\
     forall i file, nth_error files i = Some file ->
       exists r, fst (uploadOne settings file w) = Returned r /\
                 nth_error results i = Some r).
Proof.
  split; [|split; [|split; [|split]]].
  - intros settings file fileName w.
    destruct (uploadFile_env settings file fileName w) as (r & w' & H & _).
    now exists r, w'.
  - intros settings file fileName w error H. now rewrite uploadFile_run, H.
  - intros settings file fileName w v Hs Hf.
    now rewrite uploadFile_run, (validateSettings_complete _ Hs), Hf.
  - intros settings file fileName w bytes v Hs Hf Hr.
    rewrite uploadFile_run, (validateSettings_complete _ Hs), Hf. simpl.
    now rewrite Hr.
  - intros files settings w.
    destruct (processFiles_env settings files w) as (rs & w' & H & _ & L & N).
    now exists rs, w'.
Qed.

Lemma uploadFile_never_throws_witness :
  uploadFile validSettings (unreadableFile "a.png") "a.png" testWorld
  = (Returned (Failure "Failed to read file: Error: File read error"), testWorld) /\
  exists results w',
    processFiles [unreadableFile "a.png"; imageFile "b.png"] validSettings
      testWorld = (Returned results, w') /\
    List.length results = 2%nat.
Proof.
  split.
  - exact (proj1 (proj2 (proj2 uploadFile_never_throws)) validSettings
             (unreadableFile "a.png") "a.png" testWorld
             (Js.Error "File read error") eq_refl eq_refl).
  - destruct (proj2 (proj2 (proj2 (proj2 uploadFile_never_throws)))
                [unreadableFile "a.png"; imageFile "b.png"] validSettings
                testWorld) as (results & w' & H & L & _).
    exists results, w'. split; [exact H | exact L].
Defined.

(* ================================================================== *)
(** * Folder gating *)
(* ================================================================== *)

Lemma startsWith_iff (s p : string) :
  Js.startsWith s p = true <-> exists rest, s = p ++ rest.
Proof.
  unfold Js.startsWith. split.
  - apply prefix_exists.
  - intros [rest ->]. apply prefix_app.
Qed.

Lemma isInEnabledFolder_nonempty (filePath : string) (enabledFolders : list string) :
  filePath <> "" -> enabledFolders <> [] ->
  isInEnabledFolder filePath enabledFolders =
  existsb (fun folder =>
             Js.startsWith filePath (folder ++ "/") || (filePath =? folder))
    enabledFolders.
Proof.
  intros Hp Hl. unfold isInEnabledFolder.
  apply truthy_true_iff in Hp. rewrite Hp. simpl.
  destruct enabledFolders; [now elim Hl | reflexivity].
Qed.

Lemma isInEnabledFolder_empty_path (enabledFolders : list string) :
  isInEnabledFolder "" enabledFolders = false.
Proof. reflexivity. Qed.

Lemma length_pos_iff (A : Type) (l : list A) :
  (0 <? List.length l)%nat = true <-> l <> [].
Proof.
  destruct l; simpl; split; intro H; try discriminate; try reflexivity.
  now elim H.
Qed.

Lemma validateConditions_blocked (app : App) (settings : R2UploaderSettings)
  (w : World) :
  enabledFolders settings <> [] ->
  isInEnabledFolder (getCurrentFilePath app) (enabledFolders settings) = false ->
  validateConditions app settings w =
  (Returned false,
   logged (CallNotice "Current folder is not enabled for uploads" 4000) w).
Proof.
  intros Hl Hb. unfold validateConditions.
  apply length_pos_iff in Hl. rewrite Hl, Hb. reflexivity.
Qed.

Lemma handleDrop_blocked (event : DragEvent) (app : App)
  (settings : R2UploaderSettings) (w : World) :
  activeMarkdownView app = true ->
  enabledFolders settings <> [] ->
  isInEnabledFolder (getCurrentFilePath app) (enabledFolders settings) = false ->
  handleDrop event app settings w =
  (Returned tt,
   logged (CallNotice "Current folder is not enabled for uploads" 4000) w).
Proof.
  intros Hv Hl Hb. unfold handleDrop, tryCatch. rewrite Hv. cbn [negb].
  unfold bind at 1. rewrite (@validateConditions_blocked app settings w Hl Hb).
  reflexivity.
Qed.

Lemma handlePaste_blocked (event : ClipboardEvent) (app : App)
  (settings : R2UploaderSettings) (w : World) :
  activeMarkdownView app = true ->
  enabledFolders settings <> [] ->
  isInEnabledFolder (getCurrentFilePath app) (enabledFolders settings) = false ->
  handlePaste event app settings w =
  (Returned tt,
   logged (CallNotice "Current folder is not enabled for uploads" 4000) w).
Proof.
  intros Hv Hl Hb. unfold handlePaste, tryCatch. rewrite Hv. cbn [negb].
  unfold bind at 1. rewrite (@validateConditions_blocked app settings w Hl Hb).
  reflexivity.
Qed.

Lemma networkCalls_notice (message : string) (timeout : Z) (w : World) :
  networkCalls (trace (logged (CallNotice message timeout) w)) =
  networkCalls (trace w).
Proof. unfold networkCalls. simpl. rewrite filter_app. apply app_nil_r. Qed.

(** C5, as stated, fails in two places.  The empty path (no active file)
    equals the listed folder [""] exactly, yet the predicate rejects it; and
    a handler without an active Markdown view returns before the gate, so a
    path outside the list is dropped without any notice. *)
Lemma isInEnabledFolder_empty_path_blocked :
  (In "" [""] /\ isInEnabledFolder "" [""] = false) /\
  (isInEnabledFolder "other/a.png" ["docs"] = false /\
   handleDrop {| dataTransfer := Some [imageFile "b.png"] |}
     {| activeFile := Some "other/a.png"; activeMarkdownView := false |}
     (withEnabledFolders ["docs"] validSettings) testWorld =
   (Returned tt, testWorld) /\
   noticesOf (trace testWorld) = []).
Proof. repeat split. now left. Qed.

(** C5 (amended): with a non-empty allow-list and a non-empty file path, the
    predicate holds exactly when the path is a listed folder followed by [/]
    and more, or is a listed folder; the empty path (no active file) is
    rejected.  When the list is non-empty and the predicate fails,
    [validateConditions] raises the notice and returns false, and a handler
    with an active Markdown view stops there: one notice, nothing sent,
    nothing else done.  With an empty list the path plays no part: the
    outcome of [validateConditions] is the same for every path, and it is
    true when the settings are complete.  The list [docs] admits
    [docs/notes/a.md] and rejects [other/a.md]. *)
Theorem isInEnabledFolder_spec :
  (forall filePath enabledFolders,
     enabledFolders <> [] -> filePath <> "" ->
     (isInEnabledFolder filePath enabledFolders = true <->
      exists folder, In folder enabledFolders /\
        ((exists rest, filePath = folder ++ "/" ++ rest) \/ filePath = folder))) /\
  (forall enabledFolders, isInEnabledFolder "" enabledFolders = false) /\
  (forall app settings w,
     enabledFolders settings <> [] ->
     isInEnabledFolder (getCurrentFilePath app) (enabledFolders settings) = false ->
     validateConditions app settings w =
     (Returned false,
      logged (CallNotice "Current folder is not enabled for uploads" 4000) w) /\
     forall dropEvent pasteEvent,
       activeMarkdownView app = true ->
       handleDrop dropEvent app settings w =
       (Returned tt,
        logged (CallNotice "Current folder is not enabled for uploads" 4000) w) /\
       handlePaste pasteEvent app settings w =
       (Returned tt,
        logged (CallNotice "Current folder is not enabled for uploads" 4000) w) /\
       networkCalls (trace (snd (handleDrop dropEvent app settings w))) =
       networkCalls (trace w) /\
       networkCalls (trace (snd (handlePaste pasteEvent app settings w))) =
       networkCalls (trace w)) /\
  (forall app settings w,
     enabledFolders settings = [] ->
     (forall other, validateConditions app settings w =
                    validateConditions other settings w) /\
     (missingSettings settings = [] ->
      validateConditions app settings w = (Returned true, w))) /\
  isInEnabledFolder "docs/notes/a.md" ["docs"] = true /\
  isInEnabledFolder "other/a.md" ["docs"] = false.
Proof.
  split; [|split; [|split; [|split; [|split]]]]; try reflexivity.
  - intros filePath l Hl Hp. rewrite (isInEnabledFolder_nonempty Hp Hl).
    rewrite existsb_exists. split.
    + intros (folder & Hin & H). exists folder. split; [exact Hin|].
      apply orb_true_iff in H. destruct H as [H|H].
      * left. apply startsWith_iff in H. destruct H as [rest ->].
        exists rest. now rewrite app_assoc_str.
      * right. now apply String.eqb_eq.
    + intros (folder & Hin & [[rest ->] | ->]); exists folder;
        (split; [exact Hin|]); apply orb_true_iff.
      * left. apply startsWith_iff. exists rest. now rewrite app_assoc_str.
      * right. apply String.eqb_refl.
  - intros app settings w Hl Hb.
    pose proof (@validateConditions_blocked app settings w Hl Hb) as V.
    split; [exact V|]. intros dropEvent pasteEvent Hv.
    rewrite (@handleDrop_blocked dropEvent app settings w Hv Hl Hb).
    rewrite (@handlePaste_blocked pasteEvent app settings w Hv Hl Hb).
    repeat split; apply networkCalls_notice.
  - intros app settings w Hl. unfold validateConditions. rewrite Hl. simpl.
    split; [reflexivity|]. intro Hs.
    unfold missingSettings in Hs.
    destruct (Js.truthy (endpoint settings)),
      (Js.truthy (accessKeyId settings)),
      (Js.truthy (secretAccessKey settings)),
      (Js.truthy (bucketName settings)); try discriminate. reflexivity.
Qed.

Lemma isInEnabledFolder_spec_witness :
  (exists folder, In folder ["docs"] /\
     ((exists rest, "docs/notes/a.md" = folder ++ "/" ++ rest) \/
      "docs/notes/a.md" = folder)) /\
  handleDrop {| dataTransfer := Some [imageFile "a.png"] |}
    {| activeFile := Some "other/a.md"; activeMarkdownView := true |}
    (withEnabledFolders ["docs"] validSettings) testWorld =
  (Returned tt,
   logged (CallNotice "Current folder is not enabled for uploads" 4000)
     testWorld).
Proof.
  split.
  - apply (proj1 isInEnabledFolder_spec "docs/notes/a.md" ["docs"]);
      [discriminate | discriminate | reflexivity].
  - apply (proj2 (proj1 (proj2 (proj2 isInEnabledFolder_spec))
                    {| activeFile := Some "other/a.md";
                       activeMarkdownView := true |}
                    (withEnabledFolders ["docs"] validSettings) testWorld
                    ltac:(discriminate) eq_refl)
             {| dataTransfer := Some [imageFile "a.png"] |}
             {| clipboardData := None |} eq_refl).
Defined.

(** C10: the folder chooser maps the vault root to the empty string, and
    that entry matches no file: for a non-empty path that does not begin
    with [/] neither test of the entry holds, a match always comes from a
    non-empty entry, and a list holding only the root entry rejects every
    path, so [validateConditions] always stops with the notice. *)
Theorem root_entry_never_matches :
  onChooseItem "/" = "" /\
  (forall filePath,
     filePath <> "" -> Js.startsWith filePath "/" = false ->
     Js.startsWith filePath (onChooseItem "/" ++ "/") = false /\
     (filePath =? onChooseItem "/") = false /\
     isInEnabledFolder filePath [onChooseItem "/"] = false /\
     (forall enabledFolders,
        In "" enabledFolders ->
        isInEnabledFolder filePath enabledFolders = true ->
        exists folder, In folder enabledFolders /\ folder <> "" /\
          (Js.startsWith filePath (folder ++ "/") = true \/ filePath = folder))) /\
  (forall app settings w,
     enabledFolders settings = [onChooseItem "/"] ->
     Js.startsWith (getCurrentFilePath app) "/" = false ->
     validateConditions app settings w =
     (Returned false,
      logged (CallNotice "Current folder is not enabled for uploads" 4000) w)).
Proof.
  assert (E : forall filePath, filePath <> "" ->
              Js.startsWith filePath "/" = false ->
              isInEnabledFolder filePath [""] = false).
  { intros filePath Hp Hs. rewrite isInEnabledFolder_nonempty by congruence.
    simpl. rewrite Hs. simpl. rewrite orb_false_r.
    apply String.eqb_neq. exact Hp. }
  split; [reflexivity|]. split.
  - intros filePath Hp Hs. split; [exact Hs|]. split.
    { apply String.eqb_neq. exact Hp. }
    split; [now apply E|].
    intros l Hin H.
    rewrite isInEnabledFolder_nonempty in H;
      [|exact Hp | intros ->; contradiction].
    apply existsb_exists in H. destruct H as (folder & Hf & H).
    exists folder. split; [exact Hf|].
    apply orb_true_iff in H. split.
    + intros ->. simpl in H. rewrite Hs in H.
      destruct H as [H|H]; [discriminate|].
      apply String.eqb_eq in H. contradiction.
    + destruct H as [H|H]; [now left | right; now apply String.eqb_eq].
  - intros app settings w Hl Hs. apply validateConditions_blocked.
    + rewrite Hl. discriminate.
    + rewrite Hl. destruct (getCurrentFilePath app) eqn:P; [reflexivity|].
      apply E; [discriminate | exact Hs].
Qed.

Lemma root_entry_never_matches_witness :
  isInEnabledFolder "notes/a.md" [onChooseItem "/"] = false /\
  validateConditions
    {| activeFile := Some "notes/a.md"; activeMarkdownView := true |}
    (withEnabledFolders [""] validSettings) testWorld =
  (Returned false,
   logged (CallNotice "Current folder is not enabled for uploads" 4000)
     testWorld).
Proof.
  split.
  - apply (proj1 (proj2 root_entry_never_matches) "notes/a.md");
      [discriminate | reflexivity].
  - apply (proj2 (proj2 root_entry_never_matches)); reflexivity.
Defined.

(* ================================================================== *)
(** * Traces *)
(* ================================================================== *)

Lemma extended_nil (w : World) : extended [] w = w.
Proof. destruct w. unfold extended. simpl. now rewrite app_nil_r. Qed.

Lemma logged_extended (c : HostCall) (w : World) : logged c w = extended [c] w.
Proof. reflexivity. Qed.

Lemma extended_extended (a b : list HostCall) (w : World) :
  extended b (extended a w) = extended (a ++ b) w.
Proof. unfold extended. simpl. now rewrite app_assoc. Qed.

Lemma cursor_extended (calls : list HostCall) (w : World) :
  cursor (extended calls w) = cursor w.
Proof. reflexivity. Qed.

Lemma env_extended (calls : list HostCall) (w : World) :
  env (extended calls w) = env w.
Proof. reflexivity. Qed.

(* ================================================================== *)
(** * The editor *)
(* ================================================================== *)

Lemma take_app (a b : string) : Js.take (String.length a) (a ++ b) = a.
Proof. induction a; simpl; [now destruct b | congruence]. Qed.

Lemma take_length (n : nat) (s : string) :
  (n <= String.length s)%nat -> String.length (Js.take n s) = n.
Proof.
  revert s. induction n as [|n IH]; intros [|c s] H; simpl in *;
    try reflexivity; try lia.
  rewrite IH; [reflexivity | lia].
Qed.

Lemma take_drop (n : nat) (s : string) : Js.take n s ++ Js.drop n s = s.
Proof.
  revert s. induction n as [|n IH]; intros [|c s]; simpl; try reflexivity.
  now rewrite IH.
Qed.

Lemma split_no_separator (sep : ascii) (s : string) :
  Js.every (fun c => negb (Ascii.eqb c sep)) s = true -> Js.split sep s = [s].
Proof.
  induction s as [|c s IH]; simpl; intro H; [reflexivity|].
  apply andb_true_iff in H. destruct H as [Hc Hs].
  apply negb_true_iff in Hc. rewrite Hc, (IH Hs). reflexivity.
Qed.

Lemma splice_single (text : string) (col : nat) (l : string) :
  Js.every notLineFeed text = true ->
  Editor.splice text col l = [Js.take col l ++ text ++ Js.drop col l].
Proof.
  intro H. unfold Editor.splice.
  now rewrite (split_no_separator "010" text H).
Qed.

Lemma replaceRange_line (text : string) (col : nat)
  (before : list string) (l : string) (after : list string) :
  Js.every notLineFeed text = true ->
  Editor.replaceRange text (List.length before) col (before ++ l :: after)%list =
  (before ++ (Js.take col l ++ text ++ Js.drop col l)%string :: after)%list.
Proof.
  intro H. induction before as [|b bs IH].
  - simpl. destruct after; now rewrite (@splice_single text col l H).
  - simpl. destruct (bs ++ l :: after)%list eqn:E.
    + destruct bs; discriminate.
    + now rewrite IH.
Qed.

Lemma run_placeFrom (before after : list string) (texts : list string) :
  Forall (fun text => Js.every notLineFeed text = true) texts ->
  forall (col : nat) (l : string),
    (col <= String.length l)%nat ->
    Editor.run
      (map insertCall (placeFrom {| line := List.length before; ch := col |} texts))
      (before ++ l :: after)%list =
    (before ++ (Js.take col l ++ joinAll texts ++ Js.drop col l)%string
            :: after)%list.
Proof.
  induction 1 as [|text texts Ht _ IH]; intros col l Hc; simpl.
  - now rewrite take_drop.
  - rewrite (@replaceRange_line text col before l after Ht).
    rewrite IH.
    + f_equal. f_equal.
      assert (L : (col + String.length text =
                   String.length (Js.take col l ++ text))%nat)
        by (rewrite length_app_str, take_length; auto).
      rewrite L.
      replace (Js.take col l ++ text ++ Js.drop col l)
        with ((Js.take col l ++ text) ++ Js.drop col l)
        by apply app_assoc_str.
      rewrite take_app, drop_app. now rewrite !app_assoc_str.
    + rewrite !length_app_str, take_length by exact Hc.
      lia.
Qed.

(* ================================================================== *)
(** * Link insertion *)
(* ================================================================== *)

Lemma placeFrom_texts (texts : list string) :
  forall p, map fst (placeFrom p texts) = texts.
Proof. induction texts; intro p; simpl; [|rewrite IHtexts]; reflexivity. Qed.

Lemma placeFrom_consecutive (texts : list string) :
  forall p, consecutiveFrom p (placeFrom p texts).
Proof. induction texts; intro p; simpl; auto. Qed.

Lemma consecutiveFrom_later (insertions : list (string * EditorPosition)) :
  forall p, consecutiveFrom p insertions ->
  forall i t q, nth_error insertions i = Some (t, q) ->
    line q = line p /\ (ch p <= ch q)%nat.
Proof.
  induction insertions as [|[text q0] rest IH]; intros p H i t q Hn.
  - destruct i; discriminate.
  - destruct H as [-> H]. destruct i as [|i]; simpl in Hn.
    + injection Hn as _ <-. auto.
    + destruct (IH _ H i t q Hn) as [E L]. simpl in E, L. split; [exact E|lia].
Qed.

Lemma consecutiveFrom_disjoint (insertions : list (string * EditorPosition)) :
  forall p, consecutiveFrom p insertions ->
  forall i j ti qi tj qj,
    (i < j)%nat ->
    nth_error insertions i = Some (ti, qi) ->
    nth_error insertions j = Some (tj, qj) ->
    line qi = line p /\ line qj = line p /\
    (ch qi + String.length ti <= ch qj)%nat.
Proof.
  induction insertions as [|[text q0] rest IH]; intros p H i j ti qi tj qj L Hi Hj.
  - destruct i; discriminate.
  - destruct H as [-> H]. destruct j as [|j]; [lia|]. simpl in Hj.
    destruct i as [|i]; simpl in Hi.
    + injection Hi as <- <-.
      destruct (consecutiveFrom_later _ _ H _ Hj) as [E C]. simpl in E, C. auto.
    + assert (L' : (i < j)%nat) by lia.
      destruct (IH _ H i j ti qi tj qj L' Hi Hj) as (E1 & E2 & C). auto.
Qed.

Lemma insertFrom_run (links : list MarkdownLink.t) :
  forall p w,
    insertFrom p links w =
    (Returned tt,
     extended (map insertCall (placeFrom p (map markdownLink links))) w).
Proof.
  induction links as [|link links IH]; intros p w; simpl.
  - unfold ret. now rewrite extended_nil.
  - unfold bind, record. rewrite IH, logged_extended, extended_extended.
    reflexivity.
Qed.

(* ================================================================== *)
(** * The pipeline *)
(* ================================================================== *)

Lemma bind_returned (A B : Type) (m : M A) (k : A -> M B) (w w' : World) (a : A) :
  m w = (Returned a, w') -> bind m k w = k a w'.
Proof. intro H. unfold bind. now rewrite H. Qed.

Lemma uploadFile_extended (settings : R2UploaderSettings) (file : File.t)
  (fileName : string) (w : World) :
  exists r calls,
    uploadFile settings file fileName w = (Returned r, extended calls w) /\
    forallb isSend calls = true.
Proof.
  rewrite uploadFile_run.
  destruct (validateSettings settings).
  - destruct (File.arrayBuffer file).
    + eexists; exists []. now rewrite extended_nil.
    + cbv zeta. destruct (respond w _ _); eexists; eexists;
        rewrite logged_extended; split; reflexivity.
  - eexists; exists []. now rewrite extended_nil.
Qed.

Lemma processFiles_extended (settings : R2UploaderSettings) (files : list File.t) :
  forall w, exists results calls,
    processFiles files settings w = (Returned results, extended calls w) /\
    List.length results = List.length files /\
    forallb isSend calls = true.
Proof.
  unfold processFiles. induction files as [|f files IH]; intro w; simpl.
  - exists [], []. unfold ret. now rewrite extended_nil.
  - unfold bind at 1. unfold uploadOne at 1.
    unfold generateUniqueFileName, bind, dateNow, ret.
    destruct (uploadFile_extended settings f
                (Js.numberToString (now w) ++ "." ++
                 Js.optionToString (Js.at_last (Js.split "." (File.name f)))) w)
      as (r & c1 & -> & S1).
    destruct (IH (extended c1 w)) as (rs & c2 & -> & L & S2).
    exists (r :: rs), (c1 ++ c2)%list. rewrite extended_extended.
    split; [reflexivity|]. split; [simpl; congruence|].
    rewrite forallb_app, S1, S2. reflexivity.
Qed.

Lemma zipNames_run (results : list (Result UploadResult)) :
  forall (before files : list File.t) (w : World),
    List.length files = List.length results ->
    zipNames (before ++ files) (List.length before) results w =
    (Returned (zipResults files results), w).
Proof.
  induction results as [|r results IH]; intros before files w L.
  - destruct files; [reflexivity | discriminate].
  - destruct files as [|f files]; [discriminate|]. simpl.
    rewrite nth_error_app2 by lia. rewrite Nat.sub_diag. simpl.
    unfold bind.
    replace (before ++ f :: files)%list with ((before ++ [f]) ++ files)%list
      by (rewrite <- app_assoc; reflexivity).
    replace (S (List.length before)) with (List.length (before ++ [f])%list)
      by (rewrite length_app; simpl; lia).
    rewrite IH by (simpl in L; lia). reflexivity.
Qed.

Lemma showProcessResults_run (results : list FileProcessResult) :
  forall w, showProcessResults results w =
            (Returned tt, extended (map noticeCall results) w).
Proof.
  unfold showProcessResults.
  induction results as [|r results IH]; intro w; simpl.
  - unfold ret. now rewrite extended_nil.
  - unfold bind. unfold noticeCall at 1.
    destruct (result r); unfold showNotice, record;
      rewrite IH, logged_extended, extended_extended; reflexivity.
Qed.

Lemma links_of_succeeded (outcomes : list FileProcessResult) :
  map markdownLink
    (map linkOf (filter (fun r => isSuccess (result r)) outcomes)) =
  linksOfOutcomes outcomes.
Proof.
  induction outcomes as [|r outcomes IH]; simpl; [reflexivity|].
  destruct (result r) eqn:E; simpl; [|exact IH].
  rewrite IH. unfold markdownLink, linkOf. simpl. now rewrite E.
Qed.

Lemma processImages_run (files : list File.t) (settings : R2UploaderSettings)
  (w : World) :
  exists results sends,
    processFiles files settings w = (Returned results, extended sends w) /\
    List.length results = List.length files /\
    forallb isSend sends = true /\
    processImages files settings w =
    (Returned tt,
     extended
       (sends ++
        map insertCall
          (placeFrom (cursor w) (linksOfOutcomes (zipResults files results))) ++
        map noticeCall (zipResults files results)) w).
Proof.
  destruct (processFiles_extended settings files w) as (results & sends & P & L & S).
  exists results, sends. repeat split; auto.
  unfold processImages.
  rewrite (@bind_returned _ _ _ _ _ _ _ P).
  rewrite (@bind_returned _ _ _ _ _ _ _
             (@zipNames_run results [] files (extended sends w) (eq_sym L))).
  unfold insertMarkdownLinks, getCursor, bind.
  rewrite insertFrom_run, showProcessResults_run, links_of_succeeded.
  rewrite !extended_extended, cursor_extended. reflexivity.
Qed.

Lemma all_succeeded (files : list File.t) :
  forall results,
    List.length results = List.length files ->
    forallb (@isSuccess UploadResult) results = true ->
    List.length (linksOfOutcomes (zipResults files results)) = List.length files /\
    map noticeCall (zipResults files results) = map successNotice files.
Proof.
  induction files as [|f files IH]; intros [|r results] L H;
    try discriminate; [now split|].
  simpl in L, H. apply andb_true_iff in H. destruct H as [Hr H].
  destruct (IH results) as [IH1 IH2]; [lia | exact H |].
  unfold zipResults in *. simpl.
  destruct r; [|discriminate]. simpl. split.
  - now rewrite IH1.
  - unfold noticeCall at 1. simpl. now rewrite IH2.
Qed.

(** C6: [insertMarkdownLinks] inserts the links in the order given, the
    first at the cursor and each next one where the previous one ends (same
    line, column advanced by the previous link's length), so the inserted
    ranges follow one another without overlap; in a document whose cursor
    line has at least that many columns, links without a line feed end up one
    after the other between the text before the cursor and the text after
    it.  [processImages] inserts, for every batch, the links
    [![displayName](url)] of the outcomes that succeeded, in the input order
    of the files, and raises one notice per file; when every upload of the
    batch succeeds there are as many links as files and every notice is a
    success notice: two links and two success notices for two files. *)
Theorem insertMarkdownLinks_consecutive :
  (forall links w, exists insertions,
     insertMarkdownLinks links w =
     (Returned tt, extended (map insertCall insertions) w) /\
     map fst insertions = map markdownLink links /\
     consecutiveFrom (cursor w) insertions /\
     (forall i j ti qi tj qj,
        (i < j)%nat ->
        nth_error insertions i = Some (ti, qi) ->
        nth_error insertions j = Some (tj, qj) ->
        line qi = line (cursor w) /\ line qj = line (cursor w) /\
        (ch qi + String.length ti <= ch qj)%nat) /\
     (forall before l after,
        line (cursor w) = List.length before ->
        (ch (cursor w) <= String.length l)%nat ->
        Forall (fun link => Js.every notLineFeed (markdownLink link) = true)
          links ->
        Editor.run (map insertCall insertions) (before ++ l :: after)%list =
        (before ++
         (Js.take (ch (cursor w)) l ++ joinAll (map markdownLink links) ++
          Js.drop (ch (cursor w)) l)%string :: after)%list)) /\
  (forall files settings w, exists results sends insertions,
     processFiles files settings w = (Returned results, extended sends w) /\
     List.length results = List.length files /\
     processImages files settings w =
     (Returned tt,
      extended (sends ++ map insertCall insertions ++
                map noticeCall (zipResults files results)) w) /\
     forallb isSend sends = true /\
     map fst insertions = linksOfOutcomes (zipResults files results) /\
     consecutiveFrom (cursor w) insertions /\
     (forallb (@isSuccess UploadResult) results = true ->
      List.length insertions = List.length files /\
      map noticeCall (zipResults files results) = map successNotice files /\
      forall file1 file2, files = [file1; file2] ->
        exists url1 url2,
          (map insertCall insertions ++
           map noticeCall (zipResults files results))%list =
          [CallReplaceRange
             ("![" ++ Sanitize.sanitize (File.name file1) "_" ++ "](" ++
              url1 ++ ")")
             (cursor w);
           CallReplaceRange
             ("![" ++ Sanitize.sanitize (File.name file2) "_" ++ "](" ++
              url2 ++ ")")
             {| line := line (cursor w);
                ch := ch (cursor w) +
                      String.length
                        ("![" ++ Sanitize.sanitize (File.name file1) "_" ++
                         "](" ++ url1 ++ ")") |};
           successNotice file1; successNotice file2])).
Proof.
  split.
  - intros links w.
    exists (placeFrom (cursor w) (map markdownLink links)).
    split; [unfold insertMarkdownLinks, bind, getCursor; apply insertFrom_run|].
    split; [apply placeFrom_texts|].
    split; [apply placeFrom_consecutive|].
    split; [apply consecutiveFrom_disjoint, placeFrom_consecutive|].
    intros before l after Hl Hc Hf.
    destruct (cursor w) as [row col]. simpl in *. subst row.
    apply run_placeFrom; [|exact Hc].
    apply Forall_map. exact Hf.
  - intros files settings w.
    destruct (processImages_run files settings w) as (results & sends & P & L & S & R).
    exists results, sends,
      (placeFrom (cursor w) (linksOfOutcomes (zipResults files results))).
    split; [exact P|]. split; [exact L|]. split; [exact R|].
    split; [exact S|]. split; [apply placeFrom_texts|].
    split; [apply placeFrom_consecutive|].
    intro H. destruct (all_succeeded files results L H) as [A1 A2].
    split; [|split; [exact A2|]].
    + rewrite <- A1, <- (length_map fst). now rewrite placeFrom_texts.
    + intros file1 file2 ->.
      destruct results as [|[d1|] [|[d2|] [|]]]; try discriminate.
      exists (url d1), (url d2). reflexivity.
Qed.

Lemma insertMarkdownLinks_consecutive_witness :
  (exists insertions,
     insertMarkdownLinks sampleLinks testWorld =
     (Returned tt, extended (map insertCall insertions) testWorld) /\
     Editor.run (map insertCall insertions) ["abcdef"; "end"] =
     ["abc![a.png](https://cdn.example.com/1.png)![b.jpg](https://cdn.example.com/2.jpg)def";
      "end"]) /\
  (exists results sends insertions,
     processImages [imageFile "a.png"; imageFile "b.jpg"] validSettings testWorld =
     (Returned tt,
      extended (sends ++ map insertCall insertions ++
                map noticeCall
                  (zipResults [imageFile "a.png"; imageFile "b.jpg"] results))
        testWorld) /\
     List.length insertions = 2%nat /\
     map noticeCall (zipResults [imageFile "a.png"; imageFile "b.jpg"] results) =
     [CallNotice "Successfully uploaded a.png" 2000;
      CallNotice "Successfully uploaded b.jpg" 2000]).
Proof.
  split.
  - destruct (proj1 insertMarkdownLinks_consecutive sampleLinks testWorld)
      as (insertions & H1 & _ & _ & _ & H5).
    exists insertions. split; [exact H1|].
    apply (H5 [] "abcdef" ["end"]); [reflexivity | simpl; lia |].
    repeat constructor.
  - destruct (proj2 insertMarkdownLinks_consecutive
                [imageFile "a.png"; imageFile "b.jpg"] validSettings testWorld)
      as (results & sends & insertions & P & _ & R & _ & _ & _ & A).
    exists results, sends, insertions. split; [exact R|].
    vm_compute in P. injection P as <- _.
    destruct (A eq_refl) as (A1 & A2 & _). split; [exact A1 | exact A2].
Defined.

(* ================================================================== *)
(** * Display names *)
(* ================================================================== *)

Lemma every_ext (p q : ascii -> bool) (s : string) :
  (forall c, p c = q c) -> Js.every p s = Js.every q s.
Proof. intro H. induction s; simpl; [reflexivity|]. now rewrite H, IHs. Qed.

Lemma every_and (p q : ascii -> bool) (s : string) :
  Js.every p s = true -> Js.every q s = true ->
  Js.every (fun c => p c && q c) s = true.
Proof.
  induction s; simpl; [reflexivity|]. intros Hp Hq.
  apply andb_true_iff in Hp, Hq. destruct Hp as [-> Hp], Hq as [-> Hq].
  simpl. auto.
Qed.

Lemma replaceAll_removed (p : ascii -> bool) (s : string) :
  Js.every (fun c => negb (p c)) (Sanitize.replaceAll p "" s) = true.
Proof.
  induction s as [|c s IH]; simpl; [reflexivity|].
  destruct (p c) eqn:E; simpl; [exact IH|]. now rewrite E.
Qed.

Lemma replaceAll_removed_keeps (p q : ascii -> bool) (s : string) :
  Js.every q s = true -> Js.every q (Sanitize.replaceAll p "" s) = true.
Proof.
  induction s as [|c s IH]; simpl; [reflexivity|]. intro H.
  apply andb_true_iff in H. destruct H as [Hc Hs].
  destruct (p c); simpl; [auto|]. rewrite Hc. auto.
Qed.

Lemma replaceAll_same (p : ascii -> bool) (replacement s : string) :
  Js.every (fun c => negb (p c)) s = true ->
  Sanitize.replaceAll p replacement s = s.
Proof.
  induction s as [|c s IH]; simpl; [reflexivity|]. intro H.
  apply andb_true_iff in H. destruct H as [Hc Hs].
  apply negb_true_iff in Hc. rewrite Hc. simpl. now rewrite IH.
Qed.

Lemma replaceTrailing_unfold (replacement s : string) :
  Sanitize.replaceTrailing replacement s =
  if Sanitize.nonEmpty s && Js.every Sanitize.dotOrSpace s then replacement
  else match s with
       | EmptyString => EmptyString
       | String c s' => String c (Sanitize.replaceTrailing replacement s')
       end.
Proof. destruct s; reflexivity. Qed.

Lemma replaceTrailing_removed_keeps (q : ascii -> bool) (s : string) :
  Js.every q s = true -> Js.every q (Sanitize.replaceTrailing "" s) = true.
Proof.
  induction s as [|c s IH]; intro H; rewrite replaceTrailing_unfold.
  - reflexivity.
  - destruct (Sanitize.nonEmpty (String c s) &&
              Js.every Sanitize.dotOrSpace (String c s)); [reflexivity|].
    simpl in *. apply andb_true_iff in H. destruct H as [-> H]. simpl. auto.
Qed.

Lemma every_lastIs (p : ascii -> bool) (s : string) :
  Js.every p s = true -> s <> "" -> lastIs p s = true.
Proof.
  induction s as [|c s IH]; intros H N; [now elim N|].
  simpl in H. apply andb_true_iff in H. destruct H as [Hc Hs].
  destruct s as [|d s]; [exact Hc|]. apply IH; [exact Hs | discriminate].
Qed.

Lemma lastIs_cons (p : ascii -> bool) (c : ascii) (s : string) :
  lastIs p (String c s) = false -> s <> "" -> lastIs p s = false.
Proof. intros H N. destruct s; [now elim N | exact H]. Qed.

Lemma replaceTrailing_same (replacement s : string) :
  lastIs Sanitize.dotOrSpace s = false ->
  Sanitize.replaceTrailing replacement s = s.
Proof.
  induction s as [|c s IH]; intro H; rewrite replaceTrailing_unfold.
  - reflexivity.
  - destruct (Js.every Sanitize.dotOrSpace (String c s)) eqn:E.
    + rewrite every_lastIs in H; [discriminate | exact E | discriminate].
    + rewrite andb_false_r. f_equal. destruct s as [|d s].
      * reflexivity.
      * apply IH. exact H.
Qed.

Lemma truncate_keeps (q : ascii -> bool) (s : string) :
  forall n, Js.every q s = true -> Js.every q (Sanitize.truncate n s) = true.
Proof.
  induction s as [|c s IH]; intros n H; simpl; [reflexivity|].
  simpl in H. apply andb_true_iff in H. destruct H as [Hc Hs].
  destruct (Sanitize.utf8Length c <=? n)%nat; simpl; [|reflexivity].
  rewrite Hc. simpl. apply IH. exact Hs.
Qed.

Lemma truncate_same (s : string) :
  forall n, (utf8Bytes s <= n)%nat -> Sanitize.truncate n s = s.
Proof.
  induction s as [|c s IH]; intros n H; simpl in *; [reflexivity|].
  destruct (Nat.leb_spec (Sanitize.utf8Length c) n); [|lia].
  rewrite IH; [reflexivity | lia].
Qed.

(** One pass with the empty replacement leaves only allowed characters. *)
Lemma pass_removed_allowed (s : string) :
  Js.every allowed (Sanitize.pass s "") = true.
Proof.
  unfold Sanitize.pass. apply truncate_keeps.
  apply replaceTrailing_removed_keeps.
  set (s2 := Sanitize.replaceAll Sanitize.control ""
               (Sanitize.replaceAll Sanitize.illegal "" s)).
  assert (H2 : Js.every allowed s2 = true).
  { rewrite (every_ext allowed
               (fun c => negb (Sanitize.illegal c) && negb (Sanitize.control c))).
    - apply every_and.
      + apply replaceAll_removed_keeps. apply replaceAll_removed.
      + apply replaceAll_removed.
    - intro c. unfold allowed. apply negb_orb. }
  destruct (Sanitize.reserved s2);
    [destruct (Sanitize.windowsReserved ""); reflexivity|].
  destruct (Sanitize.windowsReserved s2); [reflexivity | exact H2].
Qed.

Lemma placeholders_allowed (s : string) :
  Js.every allowed (placeholders s) = true.
Proof.
  induction s as [|c s IH]; simpl; [reflexivity|].
  destruct (allowed c) eqn:E; [rewrite E | ]; simpl; exact IH.
Qed.

Lemma replaceAll_placeholders (s : string) :
  Sanitize.replaceAll Sanitize.control "_"
    (Sanitize.replaceAll Sanitize.illegal "_" s) = placeholders s.
Proof.
  induction s as [|c s IH]; simpl; [reflexivity|].
  unfold allowed. destruct (Sanitize.illegal c) eqn:I; simpl.
  - now rewrite IH.
  - destruct (Sanitize.control c); simpl; now rewrite IH.
Qed.

Lemma allowed_split (s : string) :
  Js.every allowed s = true ->
  Js.every (fun c => negb (Sanitize.illegal c)) s = true /\
  Js.every (fun c => negb (Sanitize.control c)) s = true.
Proof.
  induction s as [|c s IH]; simpl; [auto|]. intro H.
  apply andb_true_iff in H. destruct H as [Hc Hs].
  destruct (IH Hs) as [-> ->]. unfold allowed in Hc.
  rewrite negb_orb in Hc. apply andb_true_iff in Hc. destruct Hc as [-> ->].
  auto.
Qed.

(** A pass leaves a plain text as it is. *)
Lemma pass_same (s replacement : string) :
  Js.every allowed s = true ->
  Sanitize.reserved s = false ->
  Sanitize.windowsReserved s = false ->
  lastIs Sanitize.dotOrSpace s = false ->
  (utf8Bytes s <= 255)%nat ->
  Sanitize.pass s replacement = s.
Proof.
  intros Ha Hr Hw Ht Hb. destruct (allowed_split s Ha) as [Hi Hc].
  unfold Sanitize.pass.
  rewrite (replaceAll_same _ replacement s Hi).
  rewrite (replaceAll_same _ replacement s Hc).
  rewrite Hr, Hw, (replaceTrailing_same replacement s Ht).
  now apply truncate_same.
Qed.

(** C8, as stated, fails: closing brackets and parentheses are not among
    the characters [sanitize] replaces, so a name that contains them reaches
    the link unchanged and ends the description early. *)
Lemma sanitize_keeps_brackets :
  Sanitize.sanitize "a](b.png" "_" = "a](b.png" /\
  markdownLink
    (linkOf {| originalName := "a](b.png";
               result := Success (uploaded "https://cdn.example.com/1.png") |})
  = "![a](b.png](https://cdn.example.com/1.png)" /\
  bracketsBalanced (Sanitize.sanitize "a](b.png" "_") = false.
Proof. repeat split. Qed.

(** C8 (amended): the display name inside the link [![displayName](url)] is
    the sanitized original name.  It contains none of the characters that
    are illegal in file names and no control character; when the name with
    each such character replaced by [_] is not a reserved name, does not end
    in a dot or a space and fits in 255 bytes, the display name is exactly
    that text.  Square brackets and parentheses are not replaced. *)
Theorem displayName_sanitized :
  (forall name data,
     markdownLink (linkOf {| originalName := name; result := Success data |}) =
     "![" ++ Sanitize.sanitize name "_" ++ "](" ++ url data ++ ")") /\
  (forall name, Js.every allowed (Sanitize.sanitize name "_") = true) /\
  (forall name,
     Sanitize.reserved (placeholders name) = false ->
     Sanitize.windowsReserved (placeholders name) = false ->
     lastIs Sanitize.dotOrSpace (placeholders name) = false ->
     (utf8Bytes (placeholders name) <= 255)%nat ->
     Sanitize.sanitize name "_" = placeholders name) /\
  (forall c, In c ["["; "]"; "("; ")"]%char -> allowed c = true).
Proof.
  split; [reflexivity|]. split; [|split].
  - intro name. unfold Sanitize.sanitize. simpl. apply pass_removed_allowed.
  - intros name Hr Hw Ht Hb. unfold Sanitize.sanitize. simpl.
    assert (P : Sanitize.pass name "_" = placeholders name).
    { unfold Sanitize.pass. rewrite replaceAll_placeholders, Hr, Hw.
      rewrite (replaceTrailing_same "_" _ Ht). now apply truncate_same. }
    rewrite P. apply pass_same; auto. apply placeholders_allowed.
  - intros c [<-|[<-|[<-|[<-|[]]]]]; reflexivity.
Qed.

Lemma displayName_sanitized_witness :
  Sanitize.sanitize "problematic<filename>.png" "_" = "problematic_filename_.png" /\
  allowed "]" = true.
Proof.
  split.
  - apply (proj1 (proj2 (proj2 displayName_sanitized))
             "problematic<filename>.png"); try reflexivity.
    simpl. lia.
  - apply (proj2 (proj2 (proj2 displayName_sanitized))). simpl. tauto.
Defined.

(* ================================================================== *)
(** * More on the uploader *)
(* ================================================================== *)

Unset Implicit Arguments.

Lemma validateSettings_complete_iff (settings : R2UploaderSettings) :
  (complete settings = true -> validateSettings settings = Success settings) /\
  (complete settings = false ->
   validateSettings settings =
   Failure ("Missing required settings: " ++
            Js.join ", " (missingSettings settings))).
Proof.
  unfold complete, validateSettings, missingSettings.
  destruct (Js.truthy (endpoint settings)),
    (Js.truthy (accessKeyId settings)),
    (Js.truthy (secretAccessKey settings)),
    (Js.truthy (bucketName settings)); simpl; split; intro H;
    try discriminate; reflexivity.
Qed.









(* ================================================================== *)
(** * More on the gate and the handlers *)
(* ================================================================== *)

Lemma validateConditions_run (app : App) (settings : R2UploaderSettings)
  (w : World) :
  validateConditions app settings w =
  if negb (folderOpen app settings) then (Returned false, logged folderNotice w)
  else if negb (complete settings)
       then (Returned false, logged incompleteNotice w)
       else (Returned true, w).
Proof.
  unfold validateConditions, folderOpen, complete.
  destruct (enabledFolders settings) as [|folder folders]; cbn [List.length Nat.ltb Nat.leb andb negb].
  - destruct (Js.truthy (endpoint settings) && Js.truthy (accessKeyId settings) &&
              Js.truthy (secretAccessKey settings) &&
              Js.truthy (bucketName settings)); reflexivity.
  - destruct (isInEnabledFolder (getCurrentFilePath app) (folder :: folders));
      cbn [negb]; [|reflexivity].
    destruct (Js.truthy (endpoint settings) && Js.truthy (accessKeyId settings) &&
              Js.truthy (secretAccessKey settings) &&
              Js.truthy (bucketName settings)); reflexivity.
Qed.

(** X3: [validateConditions] returns true exactly when the folder part of
    the gate is open (the list is empty or the active path is in a listed
    folder) and the four required settings are present.  Then it shows no
    notice and [validateSettings] accepts the same settings, so no upload
    that follows reports missing settings.  Otherwise it shows exactly one
    notice: the folder notice whenever the folder part is closed, even if the
    settings are incomplete too, the settings notice only otherwise. *)
Theorem validateConditions_outcome (app : App) (settings : R2UploaderSettings)
  (w : World) :
  exists ok w',
    validateConditions app settings w = (Returned ok, w') /\
    ok = folderOpen app settings && complete settings /\
    (ok = true -> w' = w /\ validateSettings settings = Success settings) /\
    (ok = false ->
     w' = logged (if folderOpen app settings then incompleteNotice
                  else folderNotice) w).
Proof.
  rewrite validateConditions_run.
  destruct (folderOpen app settings); cbn [negb andb].
  - destruct (complete settings) eqn:C; cbn [negb].
    + exists true, w. repeat split; try discriminate.
      now apply validateSettings_complete_iff.
    + exists false, (logged incompleteNotice w). repeat split; discriminate.
  - exists false, (logged folderNotice w). repeat split; discriminate.
Qed.

Lemma putsOf_extended (settings : R2UploaderSettings) (calls : list HostCall)
  (w : World) (file : File.t) :
  putsOf settings (extended calls w) file = putsOf settings w file.
Proof. reflexivity. Qed.

Lemma uploadOne_puts (settings : R2UploaderSettings) (file : File.t) (w : World) :
  exists r,
    uploadOne settings file w =
    (Returned r, extended (putsOf settings w file) w) /\
    (isSuccess r = true -> readable file = true).
Proof.
  unfold uploadOne, generateUniqueFileName, dateNow.
  change (bind (bind (fun w0 : World => (Returned (now w0), w0))
                  (fun timestamp : Z =>
                     ret (Js.numberToString timestamp ++ "." ++
                          Js.optionToString
                            (Js.at_last (Js.split "." (File.name file))))))
            (fun uniqueName : string => uploadFile settings file uniqueName) w)
    with (uploadFile settings file (uniqueNameOf file w) w).
  rewrite uploadFile_run. unfold putsOf, readable.
  destruct (validateSettings settings).
  - destruct (File.arrayBuffer file) as [v|bytes].
    + eexists. rewrite extended_nil. split; [reflexivity | discriminate].
    + cbv zeta. destruct (respond w _ _); eexists;
        rewrite logged_extended; split; reflexivity.
  - eexists. rewrite extended_nil. split; [reflexivity | discriminate].
Qed.

Lemma processFiles_puts (settings : R2UploaderSettings) (files : list File.t) :
  forall w, exists results,
    processFiles files settings w =
    (Returned results, extended (flat_map (putsOf settings w) files) w) /\
    List.length results = List.length files.
Proof.
  unfold processFiles. induction files as [|f files IH]; intro w; simpl.
  - exists []. unfold ret. now rewrite extended_nil.
  - destruct (uploadOne_puts settings f w) as (r & H & _).
    destruct (IH (extended (putsOf settings w f) w)) as (rs & Hs & L).
    exists (r :: rs).
    rewrite (@bind_returned _ _ _ _ _ _ _ H).
    rewrite (@bind_returned _ _ _ _ _ _ _ Hs).
    unfold ret. rewrite extended_extended.
    split; [|simpl; congruence].
    rewrite (flat_map_ext _ _ (putsOf_extended settings (putsOf settings w f) w)).
    reflexivity.
Qed.

Lemma links_count (files : list File.t) :
  forall results,
    List.length results = List.length files ->
    List.length (linksOfOutcomes (zipResults files results)) =
    List.length (filter (@isSuccess UploadResult) results).
Proof.
  induction files as [|f files IH]; intros [|r results] L; try discriminate;
    [reflexivity|].
  unfold zipResults in *. simpl in *.
  destruct r; simpl; rewrite IH by lia; reflexivity.
Qed.

Lemma zipResults_length (files : list File.t) (results : list (Result UploadResult)) :
  List.length results = List.length files ->
  List.length (zipResults files results) = List.length files.
Proof.
  intro L. unfold zipResults. rewrite length_map, length_combine. lia.
Qed.

Lemma processImages_calls (files : list File.t) (settings : R2UploaderSettings)
  (w : World) :
  exists results insertions,
    processImages files settings w =
    (Returned tt,
     extended
       (flat_map (putsOf settings w) files ++ map insertCall insertions ++
        map noticeCall (zipResults files results)) w) /\
    List.length results = List.length files /\
    List.length insertions = List.length (filter (@isSuccess UploadResult) results) /\
    consecutiveFrom (cursor w) insertions /\
    fst (processFiles files settings w) = Returned results /\
    insertions = placeFrom (cursor w) (linksOfOutcomes (zipResults files results)).
Proof.
  destruct (processFiles_puts settings files w) as (results & P & L).
  exists results,
    (placeFrom (cursor w) (linksOfOutcomes (zipResults files results))).
  split; [|split; [exact L|split; [|split; [|split; [now rewrite P|reflexivity]]]]].
  - unfold processImages.
    rewrite (@bind_returned _ _ _ _ _ _ _ P).
    rewrite (@bind_returned _ _ _ _ _ _ _
               (@zipNames_run results [] files
                  (extended (flat_map (putsOf settings w) files) w) (eq_sym L))).
    unfold insertMarkdownLinks, getCursor, bind.
    rewrite insertFrom_run, showProcessResults_run, links_of_succeeded.
    rewrite !extended_extended, cursor_extended. reflexivity.
  - rewrite <- (links_count files results L), <- (length_map fst).
    now rewrite placeFrom_texts.
  - apply placeFrom_consecutive.
Qed.

Lemma flat_map_puts_extended (settings : R2UploaderSettings)
  (calls : list HostCall) (w : World) (files : list File.t) :
  flat_map (putsOf settings (extended calls w)) files =
  flat_map (putsOf settings w) files.
Proof. apply flat_map_ext. intro file. apply putsOf_extended. Qed.

Lemma processFiles_fst_indep (settings : R2UploaderSettings)
  (files : list File.t) :
  forall w1 w2, env w1 = env w2 ->
    fst (processFiles files settings w1) = fst (processFiles files settings w2).
Proof.
  unfold processFiles. induction files as [|f files IH]; intros w1 w2 E.
  - reflexivity.
  - destruct (uploadOne_env settings f w1) as (r & w1' & H1 & E1 & I1).
    destruct (uploadOne_env settings f w2) as (r2 & w2' & H2 & E2 & _).
    assert (R : r2 = r).
    { pose proof (I1 w2 (eq_sym E)) as X. rewrite H2 in X. simpl in X.
      congruence. }
    subst r2. simpl.
    rewrite (@bind_returned _ _ _ _ _ _ _ H1).
    rewrite (@bind_returned _ _ _ _ _ _ _ H2).
    assert (E' : env w1' = env w2') by congruence.
    specialize (IH w1' w2' E').
    unfold bind.
    destruct (mapM (uploadOne settings) files w1') as [[rs1|v1] x1];
      destruct (mapM (uploadOne settings) files w2') as [[rs2|v2] x2];
      simpl in IH; try discriminate; unfold ret; simpl; congruence.
Qed.

(** What a handler does after its gate, given the calls [pre] it makes
    before running the pipeline. *)
Lemma pipeline_after_gate (pre : list HostCall) (files : list File.t)
  (settings : R2UploaderSettings) (w : World) :
  exists results insertions,
    processImages files settings (extended pre w) =
    (Returned tt,
     extended
       (pre ++ flat_map (putsOf settings w) files ++ map insertCall insertions ++
        map noticeCall (zipResults files results)) w) /\
    List.length results = List.length files /\
    List.length insertions = List.length (filter (@isSuccess UploadResult) results) /\
    consecutiveFrom (cursor w) insertions /\
    fst (processFiles files settings w) = Returned results /\
    insertions = placeFrom (cursor w) (linksOfOutcomes (zipResults files results)).
Proof.
  destruct (processImages_calls files settings (extended pre w))
    as (results & insertions & P & L & N & C & F & I).
  exists results, insertions.
  rewrite P, extended_extended, flat_map_puts_extended.
  repeat split; auto.
  rewrite <- F. symmetry. apply processFiles_fst_indep. reflexivity.
Qed.

Lemma handleDrop_calls (event : DragEvent) (app : App)
  (settings : R2UploaderSettings) (w : World) :
  exists calls,
    handleDrop event app settings w = (Returned tt, extended calls w) /\
    ((activeMarkdownView app = false /\ calls = []) \/
     (activeMarkdownView app = true /\ folderOpen app settings = false /\
      calls = [folderNotice]) \/
     (activeMarkdownView app = true /\ folderOpen app settings = true /\
      complete settings = false /\ calls = [incompleteNotice]) \/
     (activeMarkdownView app = true /\ folderOpen app settings = true /\
      complete settings = true /\ extractDropFiles event = [] /\ calls = []) \/
     (activeMarkdownView app = true /\ folderOpen app settings = true /\
      complete settings = true /\ extractDropFiles event <> [] /\
      exists results insertions,
        calls =
        ([CallPreventDefault; CallStopPropagation;
          CallStopImmediatePropagation] ++
         flat_map (putsOf settings w) (extractDropFiles event) ++
         map insertCall insertions ++
         map noticeCall (zipResults (extractDropFiles event) results))%list /\
        List.length results = List.length (extractDropFiles event) /\
        List.length insertions =
        List.length (filter (@isSuccess UploadResult) results) /\
        consecutiveFrom (cursor w) insertions /\
        fst (processFiles (extractDropFiles event) settings w) = Returned results /\
        insertions =
        placeFrom (cursor w)
          (linksOfOutcomes (zipResults (extractDropFiles event) results)))).
Proof.
  unfold handleDrop, tryCatch.
  destruct (activeMarkdownView app); cbn [negb].
  2:{ exists []. rewrite extended_nil. split; [reflexivity|]. left. auto. }
  unfold bind at 1. rewrite validateConditions_run.
  destruct (folderOpen app settings); cbn [negb].
  2:{ exists [folderNotice]. split; [reflexivity|]. right. left. auto. }
  destruct (complete settings); cbn [negb].
  2:{ exists [incompleteNotice]. split; [reflexivity|]. right. right. left. auto. }
  destruct (extractDropFiles event) as [|f fs] eqn:E; cbn [List.length Nat.eqb].
  { exists []. rewrite extended_nil. split; [reflexivity|].
    right. right. right. left. auto. }
  destruct (pipeline_after_gate
              [CallPreventDefault; CallStopPropagation;
               CallStopImmediatePropagation] (f :: fs) settings w)
    as (results & insertions & P & L & N & C & F & I).
  eexists. split.
  - rewrite (@bind_returned _ _ (record CallPreventDefault) _ w
               (logged CallPreventDefault w) tt eq_refl).
    rewrite (@bind_returned _ _ (record CallStopPropagation) _
               (logged CallPreventDefault w)
               (logged CallStopPropagation (logged CallPreventDefault w))
               tt eq_refl).
    rewrite (@bind_returned _ _ (record CallStopImmediatePropagation) _
               (logged CallStopPropagation (logged CallPreventDefault w))
               (logged CallStopImmediatePropagation
                  (logged CallStopPropagation (logged CallPreventDefault w)))
               tt eq_refl).
    rewrite !logged_extended, !extended_extended. cbn [List.app].
    rewrite P. reflexivity.
  - right. right. right. right. repeat split; try discriminate.
    exists results, insertions. repeat split; auto.
Qed.

Lemma handlePaste_calls (event : ClipboardEvent) (app : App)
  (settings : R2UploaderSettings) (w : World) :
  exists calls,
    handlePaste event app settings w = (Returned tt, extended calls w) /\
    ((activeMarkdownView app = false /\ calls = []) \/
     (activeMarkdownView app = true /\ folderOpen app settings = false /\
      calls = [folderNotice]) \/
     (activeMarkdownView app = true /\ folderOpen app settings = true /\
      complete settings = false /\ calls = [incompleteNotice]) \/
     (activeMarkdownView app = true /\ folderOpen app settings = true /\
      complete settings = true /\ extractPasteFiles event = [] /\ calls = []) \/
     (activeMarkdownView app = true /\ folderOpen app settings = true /\
      complete settings = true /\ extractPasteFiles event <> [] /\
      exists results insertions,
        calls =
        ([CallPreventDefault] ++
         flat_map (putsOf settings w) (extractPasteFiles event) ++
         map insertCall insertions ++
         map noticeCall (zipResults (extractPasteFiles event) results))%list /\
        List.length results = List.length (extractPasteFiles event) /\
        List.length insertions =
        List.length (filter (@isSuccess UploadResult) results) /\
        consecutiveFrom (cursor w) insertions /\
        fst (processFiles (extractPasteFiles event) settings w) = Returned results /\
        insertions =
        placeFrom (cursor w)
          (linksOfOutcomes (zipResults (extractPasteFiles event) results)))).
Proof.
  unfold handlePaste, tryCatch.
  destruct (activeMarkdownView app); cbn [negb].
  2:{ exists []. rewrite extended_nil. split; [reflexivity|]. left. auto. }
  unfold bind at 1. rewrite validateConditions_run.
  destruct (folderOpen app settings); cbn [negb].
  2:{ exists [folderNotice]. split; [reflexivity|]. right. left. auto. }
  destruct (complete settings); cbn [negb].
  2:{ exists [incompleteNotice]. split; [reflexivity|]. right. right. left. auto. }
  destruct (extractPasteFiles event) as [|f fs] eqn:E; cbn [List.length Nat.eqb].
  { exists []. rewrite extended_nil. split; [reflexivity|].
    right. right. right. left. auto. }
  destruct (pipeline_after_gate [CallPreventDefault] (f :: fs) settings w)
    as (results & insertions & P & L & N & C & F & I).
  eexists. split.
  - rewrite (@bind_returned _ _ (record CallPreventDefault) _ w
               (extended [CallPreventDefault] w) tt eq_refl).
    rewrite P. reflexivity.
  - right. right. right. right. repeat split; try discriminate.
    exists results, insertions. repeat split; auto.
Qed.







(** X4: [handleDrop] evaluates the gate before it looks at the dropped
    files.  When the event carries no image file it never suppresses the
    event (no [preventDefault], no [stopPropagation]), sends nothing and
    edits nothing; but with an active Markdown view and a closed gate it
    still shows the gate's notice, although there was nothing to upload. *)
Theorem handleDrop_without_images (event : DragEvent) (app : App)
  (settings : R2UploaderSettings) (w : World) :
  extractDropFiles event = [] ->
  exists calls,
    handleDrop event app settings w = (Returned tt, extended calls w) /\
    forallb isNotice calls = true /\
    (activeMarkdownView app = true -> folderOpen app settings = false ->
     calls = [folderNotice]) /\
    (activeMarkdownView app = true -> folderOpen app settings = true ->
     complete settings = false -> calls = [incompleteNotice]) /\
    (activeMarkdownView app = false \/
     folderOpen app settings && complete settings = true -> calls = []).
Proof.
  intro E.
  destruct (handleDrop_calls event app settings w) as (calls & H & D).
  exists calls. split; [exact H|].
  destruct D as [[V ->] | [(V & F & ->) | [(V & F & C & ->) |
        [(V & F & C & _ & ->) | (V & F & C & N & _)]]]].
  - rewrite V. repeat split; intros; congruence.
  - rewrite V, F. repeat split; intros; try congruence.
    destruct H0; discriminate.
  - rewrite V, F, C. repeat split; intros; try congruence.
    destruct H0; discriminate.
  - rewrite V, F, C. repeat split; intros; congruence.
  - now elim N.
Qed.

Lemma handleDrop_without_images_witness :
  handleDrop {| dataTransfer := Some [pdfFile "paper.pdf"] |}
    (activeApp "other/a.md") (withEnabledFolders ["docs"] validSettings)
    testWorld =
  (Returned tt, extended [folderNotice] testWorld).
Proof.
  destruct (handleDrop_without_images
              {| dataTransfer := Some [pdfFile "paper.pdf"] |}
              (activeApp "other/a.md")
              (withEnabledFolders ["docs"] validSettings) testWorld eq_refl)
    as (calls & H & _ & F & _).
  rewrite H. rewrite (F eq_refl eq_refl). reflexivity.
Defined.



Lemma filter_same (A : Type) (p : A -> bool) (l : list A) :
  forallb p l = true -> filter p l = l.
Proof.
  induction l as [|x l IH]; simpl; [reflexivity|]. intro H.
  apply andb_true_iff in H. destruct H as [-> H]. now rewrite IH.
Qed.

Lemma pipeline_never_stops (settings : R2UploaderSettings) (w : World)
  (files : list File.t) (insertions : list (string * EditorPosition))
  (outcomes : list FileProcessResult) :
  forallb (fun c => negb (isStop c))
    (flat_map (putsOf settings w) files ++ map insertCall insertions ++
     map noticeCall outcomes) = true.
Proof.
  rewrite !forallb_app. apply andb_true_iff. split; [|apply andb_true_iff; split].
  - induction files as [|f files IH]; simpl; [reflexivity|].
    rewrite forallb_app, IH, andb_true_r. unfold putsOf.
    destruct (validateSettings settings); [|reflexivity].
    destruct (File.arrayBuffer f); reflexivity.
  - induction insertions; simpl; auto.
  - induction outcomes as [|r rs IH]; simpl; [reflexivity|].
    unfold noticeCall at 1. destruct (result r); exact IH.
Qed.

(** X6: a paste and a drop that carry the same image files run the same
    pipeline in the same world: the calls of [handlePaste] are those of
    [handleDrop] without the two propagation stops.  [handlePaste] never
    stops propagation, and it prevents the default paste exactly when it has
    an active Markdown view, an open gate and at least one image file. *)
Theorem handlePaste_same_pipeline (dropEvent : DragEvent)
  (pasteEvent : ClipboardEvent) (app : App) (settings : R2UploaderSettings)
  (w : World) :
  extractPasteFiles pasteEvent = extractDropFiles dropEvent ->
  exists dropCalls pasteCalls,
    handleDrop dropEvent app settings w = (Returned tt, extended dropCalls w) /\
    handlePaste pasteEvent app settings w = (Returned tt, extended pasteCalls w) /\
    pasteCalls = filter (fun c => negb (isStop c)) dropCalls /\
    (In CallPreventDefault pasteCalls <->
     activeMarkdownView app = true /\ folderOpen app settings = true /\
     complete settings = true /\ extractPasteFiles pasteEvent <> []).
Proof.
  intro E.
  destruct (handleDrop_calls dropEvent app settings w) as (dc & HD & DD).
  destruct (handlePaste_calls pasteEvent app settings w) as (pc & HP & DP).
  exists dc, pc. split; [exact HD|]. split; [exact HP|].
  destruct DP as [[V ->] | [(V & F & ->) | [(V & F & C & ->) |
        [(V & F & C & N & ->) |
         (V & F & C & N & rs & ins & -> & _ & _ & _ & FR & ->)]]]];
    destruct DD as [[V' ->] | [(V' & F' & ->) | [(V' & F' & C' & ->) |
        [(V' & F' & C' & N' & ->) |
         (V' & F' & C' & N' & rs' & ins' & -> & _ & _ & _ & FR' & ->)]]]];
    try congruence.
  - split; [reflexivity|]. simpl. split; [tauto|]. intros (X & _). congruence.
  - split; [reflexivity|]. simpl.
    split; [intros [X|[]]; discriminate|]. intros (_ & X & _). congruence.
  - split; [reflexivity|]. simpl.
    split; [intros [X|[]]; discriminate|]. intros (_ & _ & X & _). congruence.
  - split; [reflexivity|]. simpl. split; [tauto|]. intros (_ & _ & _ & X).
    contradiction.
  - rewrite E in *. assert (R : rs' = rs) by congruence. subst rs'.
    split.
    + simpl. rewrite filter_same by apply pipeline_never_stops. reflexivity.
    + split; [auto | intros _; now left].
Qed.

Lemma handlePaste_same_pipeline_witness :
  exists dropCalls pasteCalls,
    handleDrop {| dataTransfer := Some [imageFile "a.png"] |}
      (activeApp "docs/a.md") validSettings testWorld =
    (Returned tt, extended dropCalls testWorld) /\
    handlePaste
      {| clipboardData :=
           Some [ {| kind := "string"; item_type := "text/plain";
                     getAsFile := None |};
                  {| kind := "file"; item_type := "image/png";
                     getAsFile := Some (imageFile "a.png") |} ] |}
      (activeApp "docs/a.md") validSettings testWorld =
    (Returned tt, extended pasteCalls testWorld) /\
    pasteCalls = filter (fun c => negb (isStop c)) dropCalls.
Proof.
  destruct (handlePaste_same_pipeline
              {| dataTransfer := Some [imageFile "a.png"] |}
              {| clipboardData :=
                   Some [ {| kind := "string"; item_type := "text/plain";
                             getAsFile := None |};
                          {| kind := "file"; item_type := "image/png";
                             getAsFile := Some (imageFile "a.png") |} ] |}
              (activeApp "docs/a.md") validSettings testWorld eq_refl)
    as (dc & pc & HD & HP & F & _).
  exists dc, pc. auto.
Defined.

Lemma zipResults_nth (files : list File.t) :
  forall results i file r,
    nth_error files i = Some file -> nth_error results i = Some r ->
    nth_error (zipResults files results) i =
    Some {| originalName := File.name file; result := r |}.
Proof.
  unfold zipResults.
  induction files as [|f files IH]; intros [|r0 rs] [|i] file r Hf Hr;
    simpl in *; try discriminate.
  - congruence.
  - now apply IH.
Qed.

Lemma uploadOne_unreadable (settings : R2UploaderSettings) (file : File.t)
  (cause : Js.Value) (w : World) :
  complete settings = true -> File.arrayBuffer file = inl cause ->
  uploadOne settings file w =
  (Returned (Failure ("Failed to read file: " ++ Js.toString cause)), w).
Proof.
  intros Hc Hb.
  change (uploadOne settings file w)
    with (uploadFile settings file (uniqueNameOf file w) w).
  rewrite uploadFile_run.
  now rewrite (proj1 (validateSettings_complete_iff settings) Hc), Hb.
Qed.

(** X7: in a batch where some uploads fail, [processImages] inserts a link
    for each upload that succeeded and for no other, so nothing is written
    into the document when none succeeded; it raises one notice per file, in
    input order; the notice of a failed file never expires (timeout 0) and
    reads [Failed to upload <name>: <error>]; and with complete settings a
    file that cannot be read fails with [Failed to read file: ] followed by
    the cause, without any PUT for it. *)
Theorem processImages_mixed_batch (files : list File.t)
  (settings : R2UploaderSettings) (w : World) :
  exists results insertions,
    processImages files settings w =
    (Returned tt,
     extended
       (flat_map (putsOf settings w) files ++ map insertCall insertions ++
        map noticeCall (zipResults files results)) w) /\
    List.length results = List.length files /\
    List.length insertions =
    List.length (filter (@isSuccess UploadResult) results) /\
    List.length (map noticeCall (zipResults files results)) = List.length files /\
    (filter (@isSuccess UploadResult) results = [] -> insertions = []) /\
    (forall i file error,
       nth_error files i = Some file ->
       nth_error results i = Some (Failure error) ->
       nth_error (map noticeCall (zipResults files results)) i =
       Some (CallNotice ("Failed to upload " ++
                         Sanitize.sanitize (File.name file) "_" ++ ": " ++ error)
               0)) /\
    (forall i file cause,
       nth_error files i = Some file ->
       complete settings = true ->
       File.arrayBuffer file = inl cause ->
       nth_error results i =
       Some (Failure ("Failed to read file: " ++ Js.toString cause)) /\
       putsOf settings w file = []).
Proof.
  destruct (processImages_calls files settings w)
    as (results & insertions & P & L & N & C & F & I).
  exists results, insertions.
  split; [exact P|]. split; [exact L|]. split; [exact N|].
  split; [rewrite length_map; now apply zipResults_length|].
  split; [|split].
  - intro E. rewrite E in N. destruct insertions; [reflexivity | discriminate].
  - intros i file error Hf Hr.
    rewrite nth_error_map, (zipResults_nth files results i file _ Hf Hr).
    reflexivity.
  - intros i file cause Hf Hc Hb.
    destruct (processFiles_env settings files w)
      as (rs & w' & PF & _ & _ & Nth).
    rewrite PF in F. simpl in F. injection F as ->.
    destruct (Nth i file Hf) as (r & Hr & Hn).
    rewrite Hn. unfold putsOf. rewrite Hb.
    split; [|destruct (validateSettings settings); reflexivity].
    rewrite (uploadOne_unreadable settings file cause w Hc Hb) in Hr.
    cbn [fst] in Hr. injection Hr as <-. reflexivity.
Qed.

Lemma processImages_mixed_batch_witness :
  exists results : list (Result UploadResult),
    nth_error results 0 =
    Some (Failure "Failed to read file: Error: File read error") /\
    putsOf validSettings testWorld (unreadableFile "a.png") = [].
Proof.
  destruct (processImages_mixed_batch
              [unreadableFile "a.png"; imageFile "b.png"] validSettings testWorld)
    as (results & insertions & _ & _ & _ & _ & _ & _ & R).
  exists results.
  exact (R 0%nat (unreadableFile "a.png") (Js.Error "File read error")
           eq_refl eq_refl eq_refl).
Defined.

(* ================================================================== *)
(** * More on names and folders *)
(* ================================================================== *)

(** X8: two unique names are equal exactly when they were generated at the
    same clock reading from names with the same last segment.  The stem of
    the original name plays no part: [a.png] and [b.png] named in the same
    millisecond get the same unique name. *)
Theorem generateUniqueFileName_collision (name1 name2 : string) (w1 w2 : World) :
  fst (generateUniqueFileName name1 w1) = fst (generateUniqueFileName name2 w2) <->
  now w1 = now w2 /\
  Js.at_last (Js.split "." name1) = Js.at_last (Js.split "." name2).
Proof.
  unfold generateUniqueFileName, bind, dateNow, ret. cbn [fst].
  destruct (split_last name1) as (s1 & -> & N1 & _).
  destruct (split_last name2) as (s2 & -> & N2 & _).
  cbn [Js.optionToString]. split.
  - intro H. injection H as H.
    assert (T : Js.numberToString (now w1) = Js.numberToString (now w2)).
    { eapply app_dot_inj; [apply numberToString_notDot ..| exact H]. }
    rewrite T in H. apply app_inv_head_str in H. injection H as ->.
    split; [now apply numberToString_inj | reflexivity].
  - intros [-> H]. injection H as ->. reflexivity.
Qed.

Lemma generateUniqueFileName_collision_witness :
  fst (generateUniqueFileName "a.png" testWorld) =
  fst (generateUniqueFileName "holiday.b.png" testWorld).
Proof.
  apply (proj2 (generateUniqueFileName_collision "a.png" "holiday.b.png"
                  testWorld testWorld)).
  split; reflexivity.
Defined.

Lemma prefix_app_cancel (a p s : string) : prefix (a ++ p) (a ++ s) = prefix p s.
Proof.
  induction a as [|c a IH]; simpl; [reflexivity|].
  destruct (ascii_dec c c) as [_|n]; [exact IH | now elim n].
Qed.

Lemma eqb_app_self (a b : string) : b <> "" -> (a ++ b =? a) = false.
Proof.
  intro H. apply String.eqb_neq. intro E.
  apply (f_equal String.length) in E. rewrite length_app_str in E.
  destruct b; [now elim H | simpl in E; lia].
Qed.

Lemma app_not_empty (a b : string) : a <> "" -> a ++ b <> "".
Proof. destruct a; [congruence | discriminate]. Qed.

Lemma isInEnabledFolder_true_nonempty (filePath : string)
  (enabledFolders : list string) :
  isInEnabledFolder filePath enabledFolders = true -> filePath <> "".
Proof. intros H ->. discriminate. Qed.

Lemma startsWith_app_more (s p more : string) :
  Js.startsWith s p = true -> Js.startsWith (s ++ more) p = true.
Proof.
  intro H. apply startsWith_iff in H. destruct H as [rest ->].
  apply startsWith_iff. exists (rest ++ more). apply app_assoc_str.
Qed.

(** X9: how the folder predicate treats neighbours and descendants.  A
    single listed folder does not admit a path that merely continues its
    name (the folder [docs] does not admit [docs2/a.md]); a path that is
    admitted stays admitted when a separator and more is appended; and
    adding entries to a non-empty list never blocks a path that was admitted,
    whereas the first entry added to an empty list can. *)
Theorem isInEnabledFolder_neighbours :
  (forall folder rest,
     rest <> "" -> Js.startsWith rest "/" = false ->
     isInEnabledFolder (folder ++ rest) [folder] = false) /\
  (forall enabledFolders filePath more,
     isInEnabledFolder filePath enabledFolders = true ->
     isInEnabledFolder (filePath ++ "/" ++ more) enabledFolders = true) /\
  (forall folders1 folders2 filePath,
     folders1 <> [] -> incl folders1 folders2 ->
     isInEnabledFolder filePath folders1 = true ->
     isInEnabledFolder filePath folders2 = true) /\
  (isInEnabledFolder "notes/a.md" [] = true /\
   isInEnabledFolder "notes/a.md" ["docs"] = false).
Proof.
  split; [|split; [|split; [|split; reflexivity]]].
  - intros folder rest Hr Hs. unfold isInEnabledFolder.
    destruct (Js.truthy (folder ++ rest)); [|reflexivity]. simpl.
    unfold Js.startsWith in *. rewrite prefix_app_cancel, Hs.
    rewrite (eqb_app_self folder rest Hr). reflexivity.
  - intros l filePath more H.
    pose proof (isInEnabledFolder_true_nonempty _ _ H) as Hp.
    destruct l as [|f l]; unfold isInEnabledFolder in *.
    + apply truthy_true_iff in Hp.
      assert (T : Js.truthy (filePath ++ "/" ++ more) = true)
        by (apply truthy_true_iff, app_not_empty, truthy_true_iff, Hp).
      now rewrite T.
    + assert (T : Js.truthy (filePath ++ "/" ++ more) = true)
        by (apply truthy_true_iff, app_not_empty; exact Hp).
      rewrite T. apply truthy_true_iff in Hp. rewrite Hp in H.
      cbn [negb List.length Nat.eqb] in *.
      apply existsb_exists in H. destruct H as (folder & Hin & H).
      apply existsb_exists. exists folder. split; [exact Hin|].
      apply orb_true_iff in H. apply orb_true_iff. left.
      destruct H as [H|H].
      * now apply startsWith_app_more.
      * apply String.eqb_eq in H. subst folder.
        apply startsWith_iff. exists more. now rewrite app_assoc_str.
  - intros l1 l2 filePath Hn Hi H.
    pose proof (isInEnabledFolder_true_nonempty _ _ H) as Hp.
    rewrite (isInEnabledFolder_nonempty Hp Hn) in H.
    assert (Hn2 : l2 <> []).
    { destruct l1 as [|x l1]; [now elim Hn|]. intros ->.
      exact (Hi x (or_introl eq_refl)). }
    rewrite (isInEnabledFolder_nonempty Hp Hn2).
    apply existsb_exists in H. destruct H as (folder & Hin & H).
    apply existsb_exists. exists folder. split; [now apply Hi | exact H].
Qed.

Lemma isInEnabledFolder_neighbours_witness :
  isInEnabledFolder "docs2/a.md" ["docs"] = false /\
  isInEnabledFolder "docs/notes/2024/a.md" ["docs"] = true /\
  isInEnabledFolder "docs/a.md" ["docs"; "projects"] = true.
Proof.
  destruct isInEnabledFolder_neighbours as (S & D & M & _).
  split; [|split].
  - apply (S "docs" "2/a.md"); [discriminate | reflexivity].
  - apply (D ["docs"] "docs/notes" "2024/a.md"). reflexivity.
  - apply (M ["docs"] ["docs"; "projects"] "docs/a.md");
      [discriminate | | reflexivity].
    intros x [<-|[]]. now left.
Defined.

(** X10: a listed folder written with a trailing separator admits no file.
    When every entry of a non-empty list ends in [/], a path that has no
    doubled separator and does not itself end in one is rejected: the entry
    [docs/] does not admit [docs/a.md]. *)
Theorem trailing_separator_never_matches (enabledFolders : list string)
  (filePath : string) :
  enabledFolders <> [] ->
  (forall folder, In folder enabledFolders -> Js.endsWith folder "/" = true) ->
  Js.includes filePath "//" = false ->
  Js.endsWith filePath "/" = false ->
  isInEnabledFolder filePath enabledFolders = false.
Proof.
  intros Hn Hall Hd He.
  destruct (isInEnabledFolder filePath enabledFolders) eqn:H; [|reflexivity].
  pose proof (isInEnabledFolder_true_nonempty _ _ H) as Hp.
  rewrite (isInEnabledFolder_nonempty Hp Hn) in H.
  apply existsb_exists in H. destruct H as (folder & Hin & H).
  destruct (endsWith_exists _ _ (Hall folder Hin)) as [a ->].
  apply orb_true_iff in H. destruct H as [H|H].
  - apply startsWith_iff in H. destruct H as [rest ->].
    replace ((a ++ "/") ++ "/") with (a ++ "//") in Hd
      by (now rewrite app_assoc_str).
    rewrite app_assoc_str, includes_app in Hd. discriminate.
  - apply String.eqb_eq in H. subst filePath.
    rewrite endsWith_app in He. discriminate.
Qed.

Lemma trailing_separator_never_matches_witness :
  isInEnabledFolder "docs/a.md" ["docs/"] = false.
Proof.
  apply trailing_separator_never_matches; try reflexivity; try discriminate.
  intros folder [<-|[]]. reflexivity.
Defined.

(* ================================================================== *)
(** * The settings tab and the stored settings *)
(* ================================================================== *)

(** X11: [updateSettings] sets the field its key names and no other: reading
    the key back gives the value written, every other key reads as before,
    a second write to the same key overrides the first, and writing back the
    value a key already has changes nothing. *)
Theorem updateSettings_laws :
  (forall settings key value,
     getSetting key (updateSettings settings key value) = value) /\
  (forall settings key other value,
     key <> other ->
     getSetting other (updateSettings settings key value) =
     getSetting other settings) /\
  (forall settings key value value',
     updateSettings (updateSettings settings key value) key value' =
     updateSettings settings key value') /\
  (forall settings key,
     updateSettings settings key (getSetting key settings) = settings).
Proof.
  split; [|split; [|split]].
  - intros s []; reflexivity.
  - intros s [] [] v H; try reflexivity; now elim H.
  - intros s []; reflexivity.
  - intros [] []; reflexivity.
Qed.

Lemma updateSettings_laws_witness :
  getSetting KeyAccessKeyId
    (updateSettings validSettings KeyEndpoint "https://new.endpoint.com") =
  "test-key".
Proof.
  apply (proj1 (proj2 updateSettings_laws) validSettings KeyEndpoint
           KeyAccessKeyId "https://new.endpoint.com").
  discriminate.
Defined.

Lemma loadSettings_merge_aux :
  loadSettings None = DEFAULT_SETTINGS /\
  (forall data key,
     getSetting key (loadSettings (Some data)) =
     orElse (storedValue key data) (getSetting key DEFAULT_SETTINGS)) /\
  (forall settings, loadSettings (saveSettings settings) = settings) /\
  (forall base data, spread (spread base data) data = spread base data).
Proof.
  split; [reflexivity|]. split; [|split].
  - intros data []; reflexivity.
  - intros []; reflexivity.
  - intros base [data|]; [|reflexivity]. unfold spread. f_equal;
      cbn [endpoint accessKeyId secretAccessKey bucketName region customDomain
           pathPrefix useYearSubdirectory enabledFolders];
      match goal with |- orElse ?o _ = _ => destruct o; reflexivity end.
Qed.

(** X12: loading merges the stored data over the defaults field by field: a
    stored field wins, a missing one falls back to its default, and no
    stored data gives the defaults.  What [saveSettings] hands to the store
    loads back as the same settings.  After a first load without stored data
    the settings are incomplete, so the gate is closed. *)
Theorem loadSettings_merge :
  loadSettings None = DEFAULT_SETTINGS /\
  (forall data key,
     getSetting key (loadSettings (Some data)) =
     orElse (storedValue key data) (getSetting key DEFAULT_SETTINGS)) /\
  (forall settings, loadSettings (saveSettings settings) = settings) /\
  (forall base data, spread (spread base data) data = spread base data) /\
  complete (loadSettings None) = false.
Proof.
  destruct loadSettings_merge_aux as (A & B & C & D).
  repeat split; auto.
Qed.

Lemma trimStart_empty_iff (s : string) :
  Js.trimStart s = "" <-> Js.every Js.isWhiteSpace s = true.
Proof.
  induction s as [|c s IH]; simpl; [tauto|].
  destruct (Js.isWhiteSpace c); simpl; [exact IH|].
  split; discriminate.
Qed.

Lemma trimEnd_unfold (s : string) :
  Js.trimEnd s =
  if Js.every Js.isWhiteSpace s then EmptyString
  else match s with
       | EmptyString => EmptyString
       | String c s' => String c (Js.trimEnd s')
       end.
Proof. destruct s; reflexivity. Qed.

Lemma trimEnd_empty_iff (s : string) :
  Js.trimEnd s = "" <-> Js.every Js.isWhiteSpace s = true.
Proof.
  rewrite trimEnd_unfold.
  destruct (Js.every Js.isWhiteSpace s) eqn:E; [tauto|].
  destruct s; [discriminate|]. split; discriminate.
Qed.

Lemma trimStart_first (s : string) :
  firstIs Js.isWhiteSpace (Js.trimStart s) = false.
Proof.
  induction s as [|c s IH]; simpl; [reflexivity|].
  destruct (Js.isWhiteSpace c) eqn:E; [exact IH|]. simpl. exact E.
Qed.

Lemma trimEnd_first (s : string) :
  firstIs Js.isWhiteSpace s = false ->
  firstIs Js.isWhiteSpace (Js.trimEnd s) = false.
Proof.
  intro H. rewrite trimEnd_unfold.
  destruct (Js.every Js.isWhiteSpace s); [reflexivity|].
  destruct s; [reflexivity | exact H].
Qed.

Lemma trimEnd_last (s : string) :
  lastIs Js.isWhiteSpace (Js.trimEnd s) = false.
Proof.
  induction s as [|c s IH]; rewrite trimEnd_unfold; [reflexivity|].
  destruct (Js.every Js.isWhiteSpace (String c s)) eqn:E; [reflexivity|].
  destruct (Js.trimEnd s) eqn:T.
  - apply trimEnd_empty_iff in T. simpl in E. rewrite T, andb_true_r in E.
    exact E.
  - exact IH.
Qed.

Lemma trim_empty_iff (s : string) :
  Js.trim s = "" <-> Js.every Js.isWhiteSpace s = true.
Proof.
  unfold Js.trim. rewrite trimEnd_empty_iff. split.
  - intro H. apply trimStart_empty_iff.
    pose proof (trimStart_first s) as F.
    destruct (Js.trimStart s); [reflexivity|].
    simpl in H, F. rewrite F in H. discriminate.
  - intro H. apply trimStart_empty_iff in H. now rewrite H.
Qed.

Lemma trimEnd_prefix (s : string) : exists tail, s = Js.trimEnd s ++ tail.
Proof.
  induction s as [|c s [tail IH]]; rewrite trimEnd_unfold.
  - now exists "".
  - destruct (Js.every Js.isWhiteSpace (String c s)).
    + now exists (String c s).
    + exists tail. simpl. now rewrite <- IH.
Qed.

Lemma trimStart_suffix (s : string) : exists head, s = head ++ Js.trimStart s.
Proof.
  induction s as [|c s [head IH]]; simpl; [now exists ""|].
  destruct (Js.isWhiteSpace c).
  - exists (String c head). simpl. now rewrite <- IH.
  - now exists "".
Qed.

(** X13: the Add button stores nothing when the input is empty or only
    white space, so choosing the vault root in the chooser (which writes the
    empty string into the input) and pressing Add adds nothing.  Otherwise
    it appends exactly one entry at the end of the list: the trimmed input,
    which is a non-empty part of the input with no white space at either
    end.  A list without the empty string therefore never gains it.  No
    other check is made: an entry already listed is added again. *)
Theorem addFolder_spec (inputValue : string) (settings : R2UploaderSettings) :
  (Js.every Js.isWhiteSpace inputValue = true ->
   addFolder inputValue settings = None) /\
  (Js.every Js.isWhiteSpace inputValue = false ->
   exists entry,
     addFolder inputValue settings =
     Some (enabledFolders settings ++ [entry])%list /\
     entry = Js.trim inputValue /\
     entry <> "" /\
     firstIs Js.isWhiteSpace entry = false /\
     lastIs Js.isWhiteSpace entry = false /\
     exists head tail, inputValue = head ++ entry ++ tail) /\
  browseThenAdd "/" settings = None /\
  (forall folders,
     addFolder inputValue settings = Some folders ->
     ~ In "" (enabledFolders settings) -> ~ In "" folders) /\
  (forall folder,
     In folder (enabledFolders settings) ->
     Js.trim folder = folder -> folder <> "" ->
     addFolder folder settings =
     Some (enabledFolders settings ++ [folder])%list).
Proof.
  assert (N : Js.every Js.isWhiteSpace inputValue = false ->
              Js.trim inputValue <> "").
  { intros H E. apply trim_empty_iff in E. congruence. }
  split; [|split; [|split; [reflexivity|split]]].
  - intro H. unfold addFolder. apply trim_empty_iff in H. now rewrite H.
  - intro H. exists (Js.trim inputValue). unfold addFolder.
    rewrite (proj2 (truthy_true_iff _) (N H)).
    split; [reflexivity|]. split; [reflexivity|]. split; [exact (N H)|].
    split; [apply trimEnd_first, trimStart_first|].
    split; [apply trimEnd_last|].
    destruct (trimStart_suffix inputValue) as [head Hh].
    destruct (trimEnd_prefix (Js.trimStart inputValue)) as [tail Ht].
    exists head, tail. unfold Js.trim. now rewrite <- Ht.
  - intros folders H Hno Hin. unfold addFolder in H.
    destruct (Js.truthy (Js.trim inputValue)) eqn:T; [|discriminate].
    injection H as <-. apply in_app_or in Hin. destruct Hin as [Hin|[Hin|[]]].
    + contradiction.
    + apply truthy_true_iff in T. congruence.
  - intros folder _ E Hne. unfold addFolder. rewrite E.
    now rewrite (proj2 (truthy_true_iff folder) Hne).
Qed.

Lemma addFolder_spec_witness :
  addFolder "   " validSettings = None /\
  exists entry,
    addFolder "  docs/notes " validSettings = Some ([] ++ [entry])%list /\
    entry = "docs/notes".
Proof.
  split.
  - apply (proj1 (addFolder_spec "   " validSettings)). reflexivity.
  - destruct (proj1 (proj2 (addFolder_spec "  docs/notes " validSettings))
                eq_refl) as (entry & H & E & _).
    exists entry. split; [exact H | exact E].
Defined.

Lemma splice1_middle (A : Type) (a b : list A) (x : A) :
  Js.splice1 (List.length a) (a ++ x :: b) = (a ++ b)%list.
Proof.
  unfold Js.splice1. induction a as [|y a IH]; simpl; [reflexivity|].
  f_equal. exact IH.
Qed.

Lemma splice1_past_end (A : Type) (index : nat) (l : list A) :
  (List.length l <= index)%nat -> Js.splice1 index l = l.
Proof.
  intro H. unfold Js.splice1.
  rewrite firstn_all2 by exact H. rewrite skipn_all2 by lia.
  apply app_nil_r.
Qed.

(** X14: a Remove button takes out exactly the entry at its index: the
    list gets one shorter, the entries before keep their place, the entries
    after move up by one, and of several equal entries only the one at the
    index goes.  An index past the end removes nothing.  Removing never
    brings in an entry that was not listed, and removing the entry that Add
    just appended gives back the list as it was. *)
Theorem removeFolder_spec (index : nat) (settings : R2UploaderSettings) :
  ((List.length (enabledFolders settings) <= index)%nat ->
   removeFolder index settings = enabledFolders settings) /\
  (forall folder,
     nth_error (enabledFolders settings) index = Some folder ->
     S (List.length (removeFolder index settings)) =
     List.length (enabledFolders settings) /\
     S (count_occ string_dec (removeFolder index settings) folder) =
     count_occ string_dec (enabledFolders settings) folder /\
     (forall other, other <> folder ->
        count_occ string_dec (removeFolder index settings) other =
        count_occ string_dec (enabledFolders settings) other) /\
     (forall j, (j < index)%nat ->
        nth_error (removeFolder index settings) j =
        nth_error (enabledFolders settings) j) /\
     (forall j, (index <= j)%nat ->
        nth_error (removeFolder index settings) j =
        nth_error (enabledFolders settings) (S j))) /\
  (forall folder,
     In folder (removeFolder index settings) ->
     In folder (enabledFolders settings)) /\
  (forall inputValue folders,
     addFolder inputValue settings = Some folders ->
     Js.splice1 (List.length (enabledFolders settings)) folders =
     enabledFolders settings).
Proof.
  unfold removeFolder. split; [apply splice1_past_end|]. split; [|split].
  - intros folder H.
    destruct (nth_error_split _ _ H) as (a & b & E & L).
    rewrite E, <- L, splice1_middle. clear E H L.
    split; [rewrite !length_app; simpl; lia|].
    split; [rewrite !count_occ_app; simpl;
            destruct (string_dec folder folder); [lia | congruence]|].
    split; [intros other Ho; rewrite !count_occ_app; simpl;
            destruct (string_dec folder other); [congruence | reflexivity]|].
    split.
    + intros j Hj. now rewrite !nth_error_app1 by exact Hj.
    + intros j Hj. rewrite !nth_error_app2 by lia.
      replace (S j - List.length a)%nat with (S (j - List.length a)) by lia.
      reflexivity.
  - intros folder H. unfold Js.splice1 in H. apply in_app_or in H.
    destruct H as [H|H].
    + rewrite <- (firstn_skipn index (enabledFolders settings)).
      apply in_or_app. now left.
    + rewrite <- (firstn_skipn (S index) (enabledFolders settings)).
      apply in_or_app. now right.
  - intros inputValue folders H. unfold addFolder in H.
    destruct (Js.truthy (Js.trim inputValue)); [|discriminate].
    injection H as <-. rewrite splice1_middle. apply app_nil_r.
Qed.

Lemma removeFolder_spec_witness :
  S (count_occ string_dec
       (removeFolder 0 (withEnabledFolders ["docs"; "img"; "docs"] validSettings))
       "docs") = 2%nat /\
  nth_error
    (removeFolder 0 (withEnabledFolders ["docs"; "img"; "docs"] validSettings)) 1 =
  Some "docs".
Proof.
  destruct (proj1 (proj2 (removeFolder_spec 0
                            (withEnabledFolders ["docs"; "img"; "docs"]
                               validSettings))) "docs" eq_refl)
    as (_ & C & _ & _ & N).
  split; [exact C|]. apply (N 1%nat). lia.
Defined.

Lemma keepFiles_In (l : list (option File.t)) (file : File.t) :
  In file (keepFiles l) <-> In (Some file) l.
Proof.
  induction l as [|[f|] l IH]; simpl; [tauto | |].
  - rewrite IH. split; intros [H|H]; auto; left; congruence.
  - rewrite IH. split; [auto | intros [H|H]; [discriminate | exact H]].
Qed.

Lemma keepFiles_length (l : list (option File.t)) :
  (List.length (keepFiles l) <= List.length l)%nat.
Proof. induction l as [|[f|] l IH]; simpl; lia. Qed.

(** X15: a pasted file reaches the pipeline exactly when some clipboard
    item of kind [file] whose type begins with [image/] hands out that file.
    Pasted text, a file item of another type, and an image item whose file is
    missing never do; without clipboard data nothing is extracted; and there
    are never more files than clipboard items. *)
Theorem extractPasteFiles_spec (event : ClipboardEvent) :
  (forall file,
     In file (extractPasteFiles event) <->
     exists items item,
       clipboardData event = Some items /\ In item items /\
       kind item = "file" /\
       Js.startsWith (item_type item) "image/" = true /\
       getAsFile item = Some file) /\
  (clipboardData event = None -> extractPasteFiles event = []) /\
  (forall items,
     clipboardData event = Some items ->
     (List.length (extractPasteFiles event) <= List.length items)%nat).
Proof.
  unfold extractPasteFiles. split; [|split].
  - intro file. rewrite keepFiles_In, in_map_iff. split.
    + intros (item & G & H). apply filter_In in H. destruct H as [Hin Hc].
      apply andb_true_iff in Hc. destruct Hc as [Hk Ht].
      apply String.eqb_eq in Hk.
      destruct (clipboardData event) as [items|]; [|contradiction].
      exists items, item. auto.
    + intros (items & item & -> & Hin & Hk & Ht & G).
      exists item. split; [exact G|]. apply filter_In. split; [exact Hin|].
      rewrite Hk, Ht. reflexivity.
  - intros ->. reflexivity.
  - intros items ->.
    eapply Nat.le_trans; [apply keepFiles_length|].
    rewrite length_map. apply filter_length_le.
Qed.

(** X16: what the folder list shows for a chosen folder is what the chooser
    showed for it: the vault root reads [(root)] in both places, every other
    folder reads as its path. *)
Theorem folderLabel_matches_chooser (folderPath : string) :
  folderPath <> "" ->
  folderLabel (onChooseItem folderPath) = getItemText folderPath.
Proof.
  intro H. unfold folderLabel, onChooseItem, getItemText.
  destruct (folderPath =? "/"); [reflexivity|].
  now rewrite (proj2 (truthy_true_iff folderPath) H).
Qed.

Lemma folderLabel_matches_chooser_witness :
  folderLabel (onChooseItem "/") = "(root)" /\
  folderLabel (onChooseItem "docs/notes") = "docs/notes".
Proof.
  split.
  - apply (folderLabel_matches_chooser "/"). discriminate.
  - apply (folderLabel_matches_chooser "docs/notes"). discriminate.
Defined.

(** X17: [saveSettingsImmediate] never throws.  When the store accepts the
    write, the plugin holds the updated settings and reloading the stored
    data gives the same settings back.  When the store rejects it, the user
    gets one notice with the cause, the stored data is unchanged, and yet
    the plugin already holds the updated settings: memory and store then
    disagree until the next successful save. *)
Theorem saveSettingsImmediate_spec (key : SettingKey) (value : valueType key)
  (plugin : Plugin) :
  (saveSettingsImmediate key value None plugin =
   ([], {| pluginSettings := updateSettings (pluginSettings plugin) key value;
           pluginData :=
             saveSettings (updateSettings (pluginSettings plugin) key value) |}) /\
   pluginSettings
     (pluginLoadSettings (snd (saveSettingsImmediate key value None plugin))) =
   updateSettings (pluginSettings plugin) key value) /\
  (forall error,
     saveSettingsImmediate key value (Some error) plugin =
     ([CallNotice ("Failed to save settings: " ++ Js.toString error) 5000],
      {| pluginSettings := updateSettings (pluginSettings plugin) key value;
         pluginData := pluginData plugin |}) /\
     (pluginData plugin = saveSettings (pluginSettings plugin) ->
      getSetting key (pluginSettings plugin) <> value ->
      pluginSettings
        (pluginLoadSettings
           (snd (saveSettingsImmediate key value (Some error) plugin))) <>
      pluginSettings (snd (saveSettingsImmediate key value (Some error) plugin)))).
Proof.
  split.
  - split; [reflexivity|].
    unfold saveSettingsImmediate, pluginSaveSettings, pluginLoadSettings.
    cbn [snd pluginData pluginSettings].
    apply (proj1 (proj2 (proj2 loadSettings_merge_aux))).
  - intro error. split; [reflexivity|]. intros D Hne.
    unfold saveSettingsImmediate, pluginSaveSettings, pluginLoadSettings.
    cbn [snd pluginData pluginSettings]. rewrite D.
    rewrite (proj1 (proj2 (proj2 loadSettings_merge_aux))).
    intro E. apply Hne. rewrite E at 1.
    destruct key; reflexivity.
Qed.

Lemma saveSettingsImmediate_spec_witness :
  pluginData
    (snd (saveSettingsImmediate KeyBucketName "new-bucket"
            (Some (Js.Error "Save failed"))
            {| pluginSettings := validSettings;
               pluginData := saveSettings validSettings |})) =
  saveSettings validSettings /\
  (pluginSettings
    (pluginLoadSettings
       (snd (saveSettingsImmediate KeyBucketName "new-bucket"
               (Some (Js.Error "Save failed"))
               {| pluginSettings := validSettings;
                  pluginData := saveSettings validSettings |}))) =
  pluginSettings
    (snd (saveSettingsImmediate KeyBucketName "new-bucket"
            (Some (Js.Error "Save failed"))
            {| pluginSettings := validSettings;
               pluginData := saveSettings validSettings |})) -> False).
Proof.
  split; [reflexivity|].
  apply (proj2 (proj2 (saveSettingsImmediate_spec KeyBucketName "new-bucket"
                         {| pluginSettings := validSettings;
                            pluginData := saveSettings validSettings |})
                  (Js.Error "Save failed"))).
  - reflexivity.
  - discriminate.
Defined.

(* ================================================================== *)
(** * Links and stored objects *)
(* ================================================================== *)



